(** * IMDb review scraper, analyzer and classifier: a shallow embedding

    The development follows the layout of the repository:

    - [Py]: the few Python string primitives the sources call
      ([str.lower], [str.split], [str.join], [re.sub] with the
      pattern [[^\w\s]]);
    - [Preprocessor]: [utils/Preprocessor.py];
    - [Eff]: calls that change the outside world and may raise;
    - [Float], [TextBlob], [Pandas]: what the sources use of Python
      floats, of the sentiment scorer and of pandas;
    - [SentimentAnalysis]: [utils/SentimentAnalysis.py];
    - [FindMovie]: [utils/FindMovie.py];
    - [Scrapper]: [utils/Scrapper.py];
    - [App]: the pipeline and aggregation code of [app.py];
    - the modules ending in [Facts]: what is proved of each.

    Python [str] values are sequences of code points.  They are modelled
    by [string], one [ascii] per code point, so the model covers texts
    whose code points lie in U+0000..U+00FF (ASCII and the Latin-1
    supplement); the character classes below are the ones CPython uses
    on that range.  Python [float] values are IEEE 754 binary64 numbers,
    modelled by [spec_float]. *)

From Stdlib Require Import Bool Arith Lia List String Ascii ZArith QArith.
From Stdlib Require Import DecimalString.
From Stdlib Require Import Sorting.Sorted Sorting.Permutation.
From Stdlib Require Import Floats.SpecFloat.
Import ListNotations.

Local Open Scope string_scope.
Local Open Scope list_scope.
Local Open Scope nat_scope.

(* ===================================================================== *)
(** * Python string primitives                                           *)
(* ===================================================================== *)

Module Py.

(** Membership of a code point in an inclusive range. *)
Definition in_range (lo hi : nat) (c : ascii) : bool :=
  (lo <=? nat_of_ascii c) && (nat_of_ascii c <=? hi).

(** [str.isspace] on one code point (also the regex class [\s]):
    TAB, LF, VT, FF, CR, FS, GS, RS, US, SPACE, NEL and NBSP. *)
Definition isspace (c : ascii) : bool :=
  in_range 9 13 c || in_range 28 32 c
  || (nat_of_ascii c =? 133) || (nat_of_ascii c =? 160).

(** [str.isalnum] on one code point: digits, ASCII letters, and the
    letters and numeric characters of the Latin-1 supplement. *)
Definition isalnum (c : ascii) : bool :=
  in_range 48 57 c || in_range 65 90 c || in_range 97 122 c
  || (nat_of_ascii c =? 170) || in_range 178 179 c
  || (nat_of_ascii c =? 181) || in_range 185 186 c
  || in_range 188 190 c || in_range 192 214 c
  || in_range 216 246 c || in_range 248 255 c.

(** The regex class [\w]: alphanumeric code points and the underscore. *)
Definition is_word (c : ascii) : bool :=
  isalnum c || (nat_of_ascii c =? 95).

(** [str.lower] on one code point. *)
Definition lower_char (c : ascii) : ascii :=
  if in_range 65 90 c || in_range 192 214 c || in_range 216 222 c
  then ascii_of_nat (nat_of_ascii c + 32)
  else c.

(** [s.lower()]. *)
Fixpoint lower (s : string) : string :=
  match s with
  | EmptyString => EmptyString
  | String c s' => String (lower_char c) (lower s')
  end.

(** Keep the code points that satisfy [keep]. *)
Fixpoint filter_chars (keep : ascii -> bool) (s : string) : string :=
  match s with
  | EmptyString => EmptyString
  | String c s' =>
      if keep c then String c (filter_chars keep s')
      else filter_chars keep s'
  end.

(** [re.sub(r'[^\w\s]', '', s)]: delete every code point that is neither
    in [\w] nor in [\s]. *)
Definition re_sub_non_word_space (s : string) : string :=
  filter_chars (fun c => is_word c || isspace c) s.

(** The token being read is closed: nothing for an empty one. *)
Definition flush (tok : string) : list string :=
  match tok with
  | EmptyString => []
  | _ => [tok]
  end.

(** [s.split()] with [tok] the token read so far. *)
Fixpoint split_from (tok : string) (s : string) : list string :=
  match s with
  | EmptyString => flush tok
  | String c s' =>
      if isspace c then flush tok ++ split_from EmptyString s'
      else split_from (tok ++ String c EmptyString)%string s'
  end.

(** [s.split()]: the maximal runs of non-whitespace code points. *)
Definition split (s : string) : list string := split_from EmptyString s.

(** [sep.join(l)]. *)
Fixpoint join (sep : string) (l : list string) : string :=
  match l with
  | [] => EmptyString
  | [x] => x
  | x :: l' => (x ++ sep ++ join sep l')%string
  end.

(** Every code point of [s] satisfies [p]. *)
Fixpoint all_chars (p : ascii -> bool) (s : string) : bool :=
  match s with
  | EmptyString => true
  | String c s' => p c && all_chars p s'
  end.

(** Some code point of [s] satisfies [p]. *)
Fixpoint some_char (p : ascii -> bool) (s : string) : bool :=
  match s with
  | EmptyString => false
  | String c s' => p c || some_char p s'
  end.

(** [sub in s]: [sub] occurs in [s] as a contiguous run. *)
Fixpoint contains (sub s : string) : bool :=
  prefix sub s ||
  match s with
  | EmptyString => false
  | String _ s' => contains sub s'
  end.

(** [enumerate(l)] from [i]. *)
Fixpoint enumerate_from {A : Type} (i : nat) (l : list A) : list (nat * A) :=
  match l with
  | [] => []
  | x :: l' => (i, x) :: enumerate_from (S i) l'
  end.

(** [enumerate(l)]. *)
Definition enumerate {A : Type} (l : list A) : list (nat * A) :=
  enumerate_from 0 l.

(** A token, as [split] returns them: not empty, no whitespace. *)
Definition is_token (w : string) : Prop :=
  w <> EmptyString /\ all_chars (fun c => negb (isspace c)) w = true.

(** [str(n)] for a non-negative integer. *)
Definition str_of_nat (n : nat) : string :=
  NilZero.string_of_uint (Nat.to_uint n).

End Py.

(* ===================================================================== *)
(** * utils/Preprocessor.py                                              *)
(* ===================================================================== *)

Module Preprocessor.

Section WithNLTK.

(** The NLTK resources the module initialises at import time:
    [stop_words = set(stopwords.words('english'))], seen through its
    membership test, and [lemmatizer.lemmatize]. *)
Variable stop_words : string -> bool.
Variable lemmatize : string -> string.

(** The third step of [preprocess_reviews], on one review:
    [' '.join(word for word in x.split() if word not in stop_words)]. *)
Definition remove_stopwords (x : string) : string :=
  Py.join " " (filter (fun word => negb (stop_words word)) (Py.split x)).

(** The fourth step, on one review:
    [' '.join(lemmatizer.lemmatize(word) for word in x.split())]. *)
Definition lemmatize_words (x : string) : string :=
  Py.join " " (map lemmatize (Py.split x)).

(** The four steps of [preprocess_reviews] on one element of the Series. *)
Definition preprocess_review (x : string) : string :=
  let x := Py.lower x in
  let x := Py.re_sub_non_word_space x in
  let x := remove_stopwords x in
  lemmatize_words x.

(** [preprocess_reviews]: each step is applied to the whole Series
    before the next one starts. *)
Definition preprocess_reviews (reviews : list string) : list string :=
  let reviews := map Py.lower reviews in
  let reviews := map Py.re_sub_non_word_space reviews in
  let reviews := map remove_stopwords reviews in
  map lemmatize_words reviews.

End WithNLTK.

(** A code point that survives the first two steps inside a token: a
    word character that [str.lower] leaves as it is. *)
Definition clean_char (c : ascii) : bool :=
  Py.is_word c && Ascii.eqb (Py.lower_char c) c.

(** A token of a lowercased text without punctuation: a non-empty run
    of such code points. *)
Definition clean_token (w : string) : bool :=
  match w with
  | EmptyString => false
  | String _ _ => Py.all_chars clean_char w
  end.

(** The tokens of a review that reach the stopword filter. *)
Definition tokens (x : string) : list string :=
  Py.split (Py.re_sub_non_word_space (Py.lower x)).

End Preprocessor.

(* ===================================================================== *)
(** * Effects: state and exceptions                                      *)
(* ===================================================================== *)

Module Eff.

(** A raised Python exception.  [except Exception] catches the first
    kind only; [KeyboardInterrupt], [SystemExit] and the like derive
    from [BaseException] directly. *)
Inductive exn : Type :=
| Exception (what : string)
| BaseException (what : string).

(** How a call ends. *)
Inductive outcome (A : Type) : Type :=
| Return (a : A)
| Raise (e : exn).

Arguments Return {A} a.
Arguments Raise {A} e.

(** The call returned. *)
Definition returned {A : Type} (r : outcome A) : bool :=
  match r with
  | Return _ => true
  | Raise _ => false
  end.

(** A computation over a state of type [S]. *)
Definition M (S A : Type) : Type := S -> outcome A * S.

Definition ret {S A : Type} (a : A) : M S A :=
  fun s => (Return a, s).

Definition raise {S A : Type} (e : exn) : M S A :=
  fun s => (Raise e, s).

Definition bind {S A B : Type} (m : M S A) (k : A -> M S B) : M S B :=
  fun s =>
    match m s with
    | (Return a, s') => k a s'
    | (Raise e, s') => (Raise e, s')
    end.

(** [try: body finally: cleanup].  The cleanup runs however the body
    ends; an exception of the cleanup replaces the body's outcome. *)
Definition try_finally {S A : Type} (body : M S A) (cleanup : M S unit)
  : M S A :=
  fun s =>
    match body s with
    | (r, s') =>
        match cleanup s' with
        | (Return _, s'') => (r, s'')
        | (Raise e, s'') => (Raise e, s'')
        end
    end.

(** [try: body except Exception: handler]. *)
Definition try_except_Exception {S A : Type} (body : M S A) (handler : M S A)
  : M S A :=
  fun s =>
    match body s with
    | (Raise (Exception _), s') => handler s'
    | other => other
    end.

End Eff.

Declare Scope eff_scope.
Delimit Scope eff_scope with eff.
Notation "x <- m ;; k" := (Eff.bind m (fun x => k))
  (at level 61, m at next level, right associativity) : eff_scope.
Notation "m ;;; k" := (Eff.bind m (fun _ => k))
  (at level 61, right associativity) : eff_scope.

(* ===================================================================== *)
(** * Floating-point numbers                                             *)
(* ===================================================================== *)

Module Float.

(** Python's [float]: IEEE 754 binary64. *)
Definition float : Type := spec_float.

(** The literal [0.0]. *)
Definition zero : float := S754_zero false.

(** The literal [0.05]: 0x1.999999999999ap-5. *)
Definition lit_0_05 : float := S754_finite false 7205759403792794 (-57).

(** The literal [0.3]: 0x1.3333333333333p-2. *)
Definition lit_0_3 : float := S754_finite false 5404319552844595 (-54).

(** [-x]. *)
Definition neg (x : float) : float := SFopp x.

(** [x > y] and [x < y]: false as soon as one side is NaN. *)
Definition gt (x y : float) : bool := SFltb y x.
Definition lt (x y : float) : bool := SFltb x y.
Definition le (x y : float) : bool := SFleb x y.

Definition is_nan (x : float) : bool :=
  match x with
  | S754_nan => true
  | _ => false
  end.

End Float.

(* ===================================================================== *)
(** * The sentiment scorer                                               *)
(* ===================================================================== *)

Module TextBlob.

Section WithLexicon.

(** The scores the scorer's fixed lexicon heuristic gives to a text
    that is not empty. *)
Variable lexicon_score : string -> Float.float * Float.float.

(** Modelled from the spec: [TextBlob(x).sentiment], the scorer of the
    third-party package the sources import, is not under src/.  It is
    "a fixed, pretrained lexicon-based sentiment heuristic", "a pure
    function: same input text always yields the same two values", and
    "Empty-string input yields (0.0, 0.0)". *)
Definition sentiment (x : string) : Float.float * Float.float :=
  match x with
  | EmptyString => (Float.zero, Float.zero)
  | _ => lexicon_score x
  end.

End WithLexicon.

End TextBlob.

(* ===================================================================== *)
(** * pandas: Series and DataFrame                                       *)
(* ===================================================================== *)

Module Pandas.

(** A Series built from a Python list: its values, labelled 0, 1, ... *)
Definition Series (A : Type) : Type := list A.

(** A DataFrame: its rows in order, each with its index label. *)
Definition DataFrame (R : Type) : Type := list (nat * R).

(** [Series.apply(f)]. *)
Definition apply {A B : Type} (f : A -> B) (s : Series A) : Series B :=
  map f s.

(** The value of an object column at label [i]; [None] is the missing
    value the constructor fills in where the Series has no such label. *)
Definition cell {A : Type} (s : Series A) (i : nat) : option A :=
  nth_error s i.

(** The value of a float column at label [i], NaN where missing. *)
Definition float_cell (s : Series Float.float) (i : nat) : Float.float :=
  nth i s S754_nan.

(** Where an arriving value [x] stays in front of [y] in a descending
    sort with missing values last: [y] is missing, or [y <= x]. *)
Definition desc_before (x y : Float.float) : bool :=
  match x, y with
  | _, S754_nan => true
  | S754_nan, _ => false
  | _, _ => Float.le y x
  end.

(** The same for an ascending sort. *)
Definition asc_before (x y : Float.float) : bool :=
  match x, y with
  | _, S754_nan => true
  | S754_nan, _ => false
  | _, _ => Float.le x y
  end.

(** A row that comes earlier in the frame than every row of the sorted
    list [l] is put in front of the first row it may stay in front of. *)
Fixpoint insert_row {R : Type} (before : R -> R -> bool)
  (x : nat * R) (l : list (nat * R)) : list (nat * R) :=
  match l with
  | [] => [x]
  | y :: l' =>
      if before (snd x) (snd y) then x :: y :: l'
      else y :: insert_row before x l'
  end.

(** A stable sort of the rows. *)
Definition sort_rows {R : Type} (before : R -> R -> bool)
  (df : DataFrame R) : DataFrame R :=
  fold_right (insert_row before) [] df.

(** [df.nlargest(n, column)] with the default [keep='first']: the first
    [n] rows of the frame ordered by [column] in descending order, rows
    with equal values in frame order, missing values last.  The rows
    keep their index labels. *)
Definition nlargest {R : Type} (n : nat) (column : R -> Float.float)
  (df : DataFrame R) : DataFrame R :=
  firstn n (sort_rows (fun a b => desc_before (column a) (column b)) df).

(** [df.nsmallest(n, column)] with the default [keep='first']. *)
Definition nsmallest {R : Type} (n : nat) (column : R -> Float.float)
  (df : DataFrame R) : DataFrame R :=
  firstn n (sort_rows (fun a b => asc_before (column a) (column b)) df).

End Pandas.

(* ===================================================================== *)
(** * utils/SentimentAnalysis.py                                         *)
(* ===================================================================== *)

Module SentimentAnalysis.

(** A row of the frame [analyze_sentiment] builds. *)
Record Row : Type := mkRow {
  raw_reviews : option string;
  reviews : option string;
  polarity : Float.float;
  subjectivity : Float.float
}.

Section WithScorer.

Variable lexicon_score : string -> Float.float * Float.float.

(** [pd.DataFrame({'raw_reviews': ..., 'reviews': ..., 'polarity': ...,
    'subjectivity': ...})]: the index is the union of the Series'
    indexes, each column is read at each label. *)
Definition frame_of_columns
  (raw_col reviews_col : Pandas.Series string)
  (polarity_col subjectivity_col : Pandas.Series Float.float)
  : Pandas.DataFrame Row :=
  let n := Nat.max (Nat.max (List.length raw_col) (List.length reviews_col))
                   (Nat.max (List.length polarity_col)
                            (List.length subjectivity_col)) in
  map (fun i => (i, mkRow (Pandas.cell raw_col i) (Pandas.cell reviews_col i)
                          (Pandas.float_cell polarity_col i)
                          (Pandas.float_cell subjectivity_col i)))
      (seq 0 n).

Definition analyze_sentiment (reviews_ser reviews_raw : Pandas.Series string)
  : Pandas.DataFrame Row :=
  let polarity_col :=
    Pandas.apply (fun x => fst (TextBlob.sentiment lexicon_score x)) reviews_ser in
  let subjectivity_col :=
    Pandas.apply (fun x => snd (TextBlob.sentiment lexicon_score x)) reviews_ser in
  frame_of_columns reviews_raw reviews_ser polarity_col subjectivity_col.

End WithScorer.

End SentimentAnalysis.

(* ===================================================================== *)
(** * utils/FindMovie.py                                                 *)
(* ===================================================================== *)

Module FindMovie.

Import Eff.
Local Open Scope eff_scope.

(** A movie object of a search result: [movie['title']],
    [movie.get('year')] and [movie.movieID]. *)
Record Movie : Type := mkMovie {
  title : string;
  year : option nat;
  movieID : string
}.

Section WithService.

(** The state of the movie database service behind [ia]. *)
Variable Service : Type.

(** [ia.search_movie(movie_name)]: a lookup against the service. *)
Variable ia_search_movie :
  string -> Service -> outcome (list Movie) * Service.

(** What the functions act on: the service, the lines printed so far
    (oldest first) and the queries sent so far (oldest first). *)
Record World : Type := mkWorld {
  service : Service;
  stdout : list string;
  lookups : list string
}.

Definition search_movie (movie_name : string) : M World (list Movie) :=
  fun w =>
    match ia_search_movie movie_name (service w) with
    | (r, sv) => (r, mkWorld sv (stdout w) (lookups w ++ [movie_name]))
    end.

Definition print (line : string) : M World unit :=
  fun w => (Return tt, mkWorld (service w) (stdout w ++ [line]) (lookups w)).

(** [movie.get('year', 'N/A')] inside an f-string. *)
Definition year_text (movie : Movie) : string :=
  match year movie with
  | Some y => Py.str_of_nat y
  | None => "N/A"
  end.

(** [f"{i+1}. {movie['title']} ({movie.get('year', 'N/A')})"]. *)
Definition result_line (i : nat) (movie : Movie) : string :=
  (Py.str_of_nat (i + 1) ++ ". " ++ title movie
     ++ " (" ++ year_text movie ++ ")")%string.

(** The loop body of [search_movies] over the enumerated results. *)
Fixpoint print_results (l : list (nat * Movie)) : M World unit :=
  match l with
  | [] => ret tt
  | (i, movie) :: l' => print (result_line i movie) ;;; print_results l'
  end.

Definition search_movies (movie_name : string) : M World (list Movie) :=
  results <- search_movie movie_name ;;
  print_results (Py.enumerate (firstn 10 results)) ;;;
  ret results.

(** [f"https://www.imdb.com/title/tt{movie_id}/reviews"]. *)
Definition reviews_link_of (movie_id : string) : string :=
  ("https://www.imdb.com/title/tt" ++ movie_id ++ "/reviews")%string.

Definition find_and_get_reviews_link (movie_name : string)
  : M World (option string) :=
  results <- search_movie movie_name ;;
  match results with
  | movie :: _ =>
      let movie_id := movieID movie in
      let reviews_link := reviews_link_of movie_id in
      print ("Movie found: " ++ title movie
               ++ " (" ++ year_text movie ++ ")")%string ;;;
      print ("Reviews link: " ++ reviews_link)%string ;;;
      ret (Some reviews_link)
  | [] => ret None
  end.

End WithService.

Arguments service {Service} w.
Arguments stdout {Service} w.
Arguments lookups {Service} w.
Arguments mkWorld {Service} service stdout lookups.

End FindMovie.

(* ===================================================================== *)
(** * utils/Scrapper.py                                                  *)
(* ===================================================================== *)

Module Scrapper.

Import Eff.
Local Open Scope eff_scope.

(** The calls [extract_imdb_reviews] makes on the browser session and
    on the parsed page, in the order they are made. *)
Inductive event : Type :=
| EvChrome
| EvGet (url : string)
| EvFindElements (xpath : string)
| EvText
| EvScript (script : string)
| EvSleep (seconds : Q)
| EvPageSource
| EvFindAll (cls : string) (found : nat)
| EvQuit.

Definition is_quit (e : event) : bool :=
  match e with
  | EvQuit => true
  | _ => false
  end.

Definition is_find_all (e : event) : bool :=
  match e with
  | EvFindAll _ _ => true
  | _ => false
  end.

Definition chrome_arguments : list string :=
  [ "--headless";
    "--disable-gpu";
    "--window-size=1920,1080";
    "--disable-blink-features=AutomationControlled";
    "--user-agent=Mozilla/5.0 (Windows NT 10.0; Win64; x64) AppleWebKit/537.36 (KHTML, like Gecko) Chrome/120.0.0.0 Safari/537.36";
    "--no-sandbox";
    "--disable-dev-shm-usage";
    "--disable-web-security";
    "--disable-features=VizDisplayCompositor" ].

(** The double quote character. *)
Definition dquote : string := String (ascii_of_nat 34) EmptyString.

(** ['//button[contains(@class, "ipc-see-more")]']. *)
Definition see_more_xpath : string :=
  ("//button[contains(@class, " ++ dquote ++ "ipc-see-more" ++ dquote
     ++ ")]")%string.

Definition scroll_script : string := "arguments[0].scrollIntoView(true);".
Definition click_script : string := "arguments[0].click();".

(** The default of the parameter [waiting_timeout]. *)
Definition default_waiting_timeout : Q := 8.

Definition main_class : string := "ipc-html-content-inner-div".
Definition fallback_class : string := "text show-more__control".

Section WithBrowser.

(** The machine outside the function (browser process, network, page),
    and the handles selenium and BeautifulSoup give out. *)
Variables Machine Driver Element Soup Tag : Type.

(** selenium: each call can return or raise, and changes the machine. *)
Variable webdriver_Chrome : list string -> Machine -> outcome Driver * Machine.
Variable driver_get : Driver -> string -> Machine -> outcome unit * Machine.
Variable driver_find_elements :
  Driver -> string -> Machine -> outcome (list Element) * Machine.
Variable element_text : Element -> Machine -> outcome string * Machine.
Variable driver_execute_script :
  Driver -> string -> Element -> Machine -> outcome unit * Machine.
Variable time_sleep : Q -> Machine -> outcome unit * Machine.
Variable driver_page_source : Driver -> Machine -> outcome string * Machine.
Variable driver_quit : Driver -> Machine -> outcome unit * Machine.

(** BeautifulSoup: [BeautifulSoup(html, 'html.parser')],
    [soup.find_all('div', {'class': c})] in document order, and
    [tag.get_text(strip=True)]. *)
Variable BeautifulSoup : string -> Soup.
Variable soup_find_all_div : Soup -> string -> list Tag.
Variable tag_get_text : Tag -> string.

(** The machine together with the calls made so far, oldest first,
    each with whether it returned ([true]) or raised ([false]). *)
Definition State : Type := Machine * list (event * bool).

(** A call on the machine is made and recorded. *)
Definition call {A : Type} (ev : event)
  (op : Machine -> outcome A * Machine) : M State A :=
  fun s =>
    match op (fst s) with
    | (r, m) => (r, (m, snd s ++ [(ev, returned r)]))
    end.

(** [soup.find_all('div', {'class': c})], recorded with the number of
    tags it found. *)
Definition find_all (soup : Soup) (c : string) : M State (list Tag) :=
  let results := soup_find_all_div soup c in
  fun s =>
    (Return results,
     (fst s, snd s ++ [(EvFindAll c (List.length results), true)])).

(** The [for button in all_buttons] loop: the first button whose text
    contains "All" is scrolled to and clicked, and the loop is left. *)
Fixpoint click_all_button (driver : Driver) (all_buttons : list Element)
  : M State bool :=
  match all_buttons with
  | [] => ret false
  | button :: rest =>
      text <- call EvText (element_text button) ;;
      if Py.contains "All" text then
        call (EvScript scroll_script)
             (driver_execute_script driver scroll_script button) ;;;
        call (EvSleep (1 # 2)) (time_sleep (1 # 2)) ;;;
        call (EvScript click_script)
             (driver_execute_script driver click_script button) ;;;
        ret true
      else click_all_button driver rest
  end.

(** The inner [try ... except Exception: pass]; its value is the
    [all_button_clicked] flag afterwards, the flag being set only by a
    click that returned. *)
Definition locate_and_click (driver : Driver) : M State bool :=
  try_except_Exception
    (all_buttons <- call (EvFindElements see_more_xpath)
                         (driver_find_elements driver see_more_xpath) ;;
     click_all_button driver all_buttons)
    (ret false).

(** Lines 65 to 76: the main selector, then the fallback selector if
    [reviews] is still empty. *)
Definition select_reviews (soup : Soup) : M State (list string) :=
  let reviews := [] in
  results <- find_all soup main_class ;;
  let reviews := reviews ++ map tag_get_text results in
  match reviews with
  | [] =>
      results <- find_all soup fallback_class ;;
      ret (reviews ++ map tag_get_text results)
  | _ :: _ => ret reviews
  end.

(** The body of the outer [try].  The [WebDriverWait(driver, 10)] object
    is built and never used. *)
Definition session (driver : Driver) (url : string) (waiting_timeout : Q)
  : M State (list string) :=
  call (EvGet url) (driver_get driver url) ;;;
  let all_button_clicked := false in
  all_button_clicked <-
    (if negb all_button_clicked then locate_and_click driver
     else ret all_button_clicked) ;;
  (if all_button_clicked
   then call (EvSleep waiting_timeout) (time_sleep waiting_timeout)
   else call (EvSleep 3) (time_sleep 3)) ;;;
  html <- call EvPageSource (driver_page_source driver) ;;
  let soup := BeautifulSoup html in
  select_reviews soup.

Definition extract_imdb_reviews (url : string) (waiting_timeout : Q)
  : M State (list string) :=
  driver <- call EvChrome (webdriver_Chrome chrome_arguments) ;;
  try_finally (session driver url waiting_timeout)
              (call EvQuit (driver_quit driver)).

(** What lines 65 to 76 give on a parsed page: the texts returned and
    the selector calls recorded. *)
Definition selection_of (soup : Soup) : list string * list (event * bool) :=
  match soup_find_all_div soup main_class with
  | [] =>
      let fallback := soup_find_all_div soup fallback_class in
      (map tag_get_text fallback,
       [(EvFindAll main_class 0, true);
        (EvFindAll fallback_class (List.length fallback), true)])
  | tag :: tags =>
      (map tag_get_text (tag :: tags),
       [(EvFindAll main_class (S (List.length tags)), true)])
  end.

End WithBrowser.

(** The recorded calls of one kind. *)
Definition calls_of (kind : event -> bool) (log : list (event * bool))
  : list (event * bool) :=
  filter (fun entry => kind (fst entry)) log.

(** A call that is neither a selector call nor the release. *)
Definition is_plain (e : event) : bool :=
  negb (is_quit e) && negb (is_find_all e).

(** The computation only adds calls of the given kind to the record. *)
Definition appends {Machine A : Type} (kind : event -> bool)
  (c : Eff.M (Machine * list (event * bool)) A) : Prop :=
  forall s, exists entries,
    snd (snd (c s)) = snd s ++ entries
    /\ forallb (fun entry => kind (fst entry)) entries = true.

End Scrapper.

(* ===================================================================== *)
(** * app.py                                                             *)
(* ===================================================================== *)

Module App.

Import Eff.
Local Open Scope eff_scope.

(** The five faces [polarity_to_emoji] chooses from. *)
Inductive Emoji : Type :=
| BeamingFace
| SlightlySmilingFace
| PensiveFace
| NeutralFace
| ExpressionlessFace.

Definition polarity_to_emoji (polarity : Float.float) : Emoji :=
  if Float.gt polarity Float.lit_0_3 then BeamingFace
  else if Float.gt polarity Float.lit_0_05 then SlightlySmilingFace
  else if Float.lt polarity (Float.neg Float.lit_0_3) then PensiveFace
  else if Float.lt polarity (Float.neg Float.lit_0_05) then NeutralFace
  else ExpressionlessFace.

Definition polarity_bucket (p : Float.float) : string :=
  if Float.gt p Float.lit_0_05 then "Positive"
  else if Float.lt p (Float.neg Float.lit_0_05) then "Negative"
  else "Neutral".

(** A row of [df] once [main] has added the two label columns. *)
Record LabelledRow : Type := mkLabelledRow {
  scored : SentimentAnalysis.Row;
  sentiment : string;
  emoji : Emoji
}.

(** The polarity column of the labelled frame. *)
Definition polarity_of (r : LabelledRow) : Float.float :=
  SentimentAnalysis.polarity (scored r).

(** [df['sentiment'] = df['polarity'].apply(polarity_bucket)] and
    [df['emoji'] = df['polarity'].apply(polarity_to_emoji)]. *)
Definition add_labels (df : Pandas.DataFrame SentimentAnalysis.Row)
  : Pandas.DataFrame LabelledRow :=
  map (fun '(i, r) =>
         (i, mkLabelledRow r
               (polarity_bucket (SentimentAnalysis.polarity r))
               (polarity_to_emoji (SentimentAnalysis.polarity r))))
      df.

(** [top_positive = df.nlargest(3, 'polarity')]. *)
Definition top_positive (df : Pandas.DataFrame LabelledRow)
  : Pandas.DataFrame LabelledRow :=
  Pandas.nlargest 3 polarity_of df.

(** [top_negative = df.nsmallest(3, 'polarity')]. *)
Definition top_negative (df : Pandas.DataFrame LabelledRow)
  : Pandas.DataFrame LabelledRow :=
  Pandas.nsmallest 3 polarity_of df.

Section WithLibraries.

Variable stop_words : string -> bool.
Variable lemmatize : string -> string.
Variable lexicon_score : string -> Float.float * Float.float.

(** [Series.mean()] of pandas on a float column. *)
Variable series_mean : Pandas.Series Float.float -> Float.float.

(** The body of [sentiment_pipeline]. *)
Definition sentiment_pipeline (raw_reviews : list string)
  : Pandas.DataFrame SentimentAnalysis.Row :=
  let processed := Preprocessor.preprocess_reviews stop_words lemmatize raw_reviews in
  SentimentAnalysis.analyze_sentiment lexicon_score processed raw_reviews.

(** [avg_polarity = df['polarity'].mean()]. *)
Definition avg_polarity (df : Pandas.DataFrame LabelledRow) : Float.float :=
  series_mean (map (fun r => polarity_of (snd r)) df).

(** [overall_sentiment = polarity_bucket(avg_polarity)]. *)
Definition overall_sentiment (df : Pandas.DataFrame LabelledRow) : string :=
  polarity_bucket (avg_polarity df).

End WithLibraries.

Section WithService.

Variable Service : Type.
Variable ia_search_movie :
  string -> Service -> outcome (list FindMovie.Movie) * Service.

(** The body of [get_movie_candidates]. *)
Definition get_movie_candidates (query : string)
  : M (FindMovie.World Service) (list FindMovie.Movie) :=
  FindMovie.search_movies Service ia_search_movie query.

(** [candidates = get_movie_candidates(movie_query)[:10]] in [main]. *)
Definition candidates (movie_query : string)
  : M (FindMovie.World Service) (list FindMovie.Movie) :=
  found <- get_movie_candidates movie_query ;;
  ret (firstn 10 found).

End WithService.

End App.


(* ===================================================================== *)
(** * Vocabulary of the ranking properties                               *)
(* ===================================================================== *)

Module Ranking.

Import Float.

(** [x] is strictly ahead of [y] in a ranking where [ahead] is [>] (the
    largest first) or [<] (the smallest first) and missing values come
    last. *)
Definition strictly_ahead (ahead : float -> float -> bool) (x y : float)
  : Prop :=
  is_nan x = false /\ (is_nan y = true \/ ahead x y = true).

(** Neither value is ahead of the other: both are missing, or both are
    numbers that compare equal. *)
Definition tied (x y : float) : Prop :=
  (is_nan x = true /\ is_nan y = true)
  \/ (is_nan x = false /\ is_nan y = false
      /\ lt x y = false /\ gt x y = false).

(** Row [a] comes before row [b]: its value is strictly ahead, or the
    values are tied and [a] has the smaller index label. *)
Definition precedes {R : Type} (ahead : float -> float -> bool)
  (column : R -> float) (a b : nat * R) : Prop :=
  strictly_ahead ahead (column (snd a)) (column (snd b))
  \/ (tied (column (snd a)) (column (snd b)) /\ (fst a < fst b)%nat).

(** Sort keys: four integers compared lexicographically. *)
Definition key : Type := (Z * Z * Z * Z)%type.

Definition key_lt (a b : key) : Prop :=
  let '(a1, a2, a3, a4) := a in
  let '(b1, b2, b3, b4) := b in
  (a1 < b1 \/ (a1 = b1 /\ (a2 < b2 \/ (a2 = b2 /\ (a3 < b3 \/
     (a3 = b3 /\ a4 < b4))))))%Z.

Definition key_eq (a b : key) : Prop :=
  let '(a1, a2, a3, a4) := a in
  let '(b1, b2, b3, b4) := b in
  (a1 = b1 /\ a2 = b2 /\ a3 = b3 /\ a4 = b4)%Z.

Definition key_le (a b : key) : Prop := key_lt a b \/ key_eq a b.

(** The key of a float in ascending order, missing values last: sign
    class, then exponent, then mantissa, as [SFcompare] compares. *)
Definition asc_key (x : float) : key :=
  match x with
  | S754_nan => (1, 0, 0, 0)
  | S754_infinity true => (0, -2, 0, 0)
  | S754_infinity false => (0, 2, 0, 0)
  | S754_zero _ => (0, 0, 0, 0)
  | S754_finite false m e => (0, 1, e, Zpos m)
  | S754_finite true m e => (0, -1, - e, Zneg m)
  end%Z.

(** The key of a float in descending order, missing values last. *)
Definition desc_key (x : float) : key :=
  let '(k1, k2, k3, k4) := asc_key x in (k1, - k2, - k3, - k4)%Z.

(** The order of the keys, on rows, with the index label to break
    ties. *)
Definition key_precedes {R : Type} (k : R -> key) (a b : nat * R) : Prop :=
  key_lt (k (snd a)) (k (snd b))
  \/ (key_eq (k (snd a)) (k (snd b)) /\ (fst a < fst b)%nat).

End Ranking.

(* ===================================================================== *)
(** * Sample resources for concrete runs                                 *)
(* ===================================================================== *)

Module Samples.

(** A few entries of the English stopword list. *)
Definition some_stop_words : list string :=
  ["i"; "it"; "the"; "was"; "a"; "can"; "will"].

Definition stop_words (word : string) : bool :=
  existsb (String.eqb word) some_stop_words.

(** A lemmatizer that knows one plural, "cans", whose base form "can"
    is a stopword. *)
Definition lemmatize_cans (word : string) : string :=
  if (word =? "cans")%string then "can" else word.

(** A lemmatizer that knows one plural, "movies". *)
Definition lemmatize_movies (word : string) : string :=
  if (word =? "movies")%string then "movie" else word.

(** Eleven search results. *)
Definition eleven_movies : list FindMovie.Movie :=
  map (fun i => FindMovie.mkMovie ("Movie " ++ Py.str_of_nat i)%string
                                  (Some (2000 + i))
                                  ("00000" ++ Py.str_of_nat (10 + i))%string)
      (seq 1 11).

(** A service that answers every query with them. *)
Definition lookup_eleven (query : string) (sv : unit)
  : Eff.outcome (list FindMovie.Movie) * unit :=
  (Eff.Return eleven_movies, sv).

Definition fresh_world : FindMovie.World unit :=
  FindMovie.mkWorld tt [] [].

(** Labelled rows with the given polarities. *)
Definition rows_of (polarities : list Float.float) : list App.LabelledRow :=
  map (fun p => App.mkLabelledRow
                  (SentimentAnalysis.mkRow None None p Float.zero)
                  (App.polarity_bucket p) (App.polarity_to_emoji p))
      polarities.

(** A browser with one driver, no button and a page without review
    tags; [get_fails] makes the navigation raise. *)
Definition run_on_empty_page (get_fails : bool)
  : Eff.outcome (list string) * (unit * list (Scrapper.event * bool)) :=
  Scrapper.extract_imdb_reviews unit unit unit unit unit
    (fun _ m => (Eff.Return tt, m))
    (fun _ _ m =>
       if get_fails then (Eff.Raise (Eff.Exception "WebDriverException"), m)
       else (Eff.Return tt, m))
    (fun _ _ m => (Eff.Return [], m))
    (fun _ m => (Eff.Return EmptyString, m))
    (fun _ _ _ m => (Eff.Return tt, m))
    (fun _ m => (Eff.Return tt, m))
    (fun _ m => (Eff.Return "<html></html>", m))
    (fun _ m => (Eff.Return tt, m))
    (fun _ => tt)
    (fun _ _ => [])
    (fun _ => EmptyString)
    "https://www.imdb.com/title/tt0133093/reviews"
    Scrapper.default_waiting_timeout
    (tt, []).

End Samples.

(* ===================================================================== *)
(** * app.py: display helpers and the bookkeeping of [main]              *)
(* ===================================================================== *)

Module AppDisplay.

Import Float.

Definition get_sentiment_color (polarity : float) : string :=
  if gt polarity lit_0_05 then "#4CAF50"
  else if lt polarity (neg lit_0_05) then "#F44336"
  else "#FFC107".

(** The colour scale both charts of [main] are given: [domain] and
    [range]. *)
Definition scale_domain : list string := ["Positive"; "Neutral"; "Negative"].
Definition scale_range : list string := ["#4CAF50"; "#FFC107"; "#F44336"].

(** A scale draws the i-th value of its domain in the i-th colour of
    its range. *)
Fixpoint scale_color (domain range : list string) (value : string)
  : option string :=
  match domain, range with
  | d :: domain', r :: range' =>
      if (value =? d)%string then Some r
      else scale_color domain' range' value
  | _, _ => None
  end.

(** The verdict of the "Viewer Verdict" metric. *)
Definition verdict (avg_polarity : float) : string :=
  if gt avg_polarity lit_0_3 then "Highly Praised"
  else if gt avg_polarity lit_0_05 then "Praised"
  else if lt avg_polarity (neg lit_0_05) then "Not Praised"
  else "Mixed Reviews".

(** The conditional expression inside the "Overall Sentiment" box. *)
Definition summary_phrase (avg_polarity : float) : string :=
  if gt avg_polarity lit_0_05 then "mostly positive"
  else if lt avg_polarity (neg lit_0_05) then "mostly negative"
  else "mixed".

(** The first [n] code points of [s]. *)
Fixpoint take (n : nat) (s : string) : string :=
  match n, s with
  | S n', String c s' => String c (take n' s')
  | _, _ => EmptyString
  end.

(** [len(s)]. *)
Definition len (s : string) : Z := Z.of_nat (String.length s).

(** [s[:stop]]: a negative [stop] counts from the end. *)
Definition slice_to (s : string) (stop : Z) : string :=
  if (stop <? 0)%Z then take (Z.to_nat (len s + stop)) s
  else take (Z.to_nat stop) s.

Definition format_review_for_display (review : string) (max_length : Z)
  : string :=
  if (len review <=? max_length)%Z then review
  else (slice_to review max_length ++ "...")%string.

(** The default of the parameter [max_length]. *)
Definition default_max_length : Z := 300.

(** A [Dict[str, str]]: its items in insertion order. *)
Definition Dict : Type := list (string * string).

(** [d[k] = v]: a key already present keeps its place. *)
Fixpoint dict_set (k v : string) (d : Dict) : Dict :=
  match d with
  | [] => [(k, v)]
  | (k', v') :: d' =>
      if (k =? k')%string then (k', v) :: d'
      else (k', v') :: dict_set k v d'
  end.

(** [d[k]]; [None] stands for the [KeyError]. *)
Fixpoint dict_get (k : string) (d : Dict) : option string :=
  match d with
  | [] => None
  | (k', v') :: d' => if (k =? k')%string then Some v' else dict_get k d'
  end.

(** [list(d.keys())]. *)
Definition dict_keys (d : Dict) : list string := map fst d.

(** [label = f"{title} ({year})" if year else title]: a missing year
    and the year 0 are both false. *)
Definition candidate_label (m : FindMovie.Movie) : string :=
  match FindMovie.year m with
  | Some (S y) =>
      (FindMovie.title m ++ " (" ++ Py.str_of_nat (S y) ++ ")")%string
  | _ => FindMovie.title m
  end.

(** The loop of [main] that fills [options]. *)
Definition build_options (candidates : list FindMovie.Movie) : Dict :=
  fold_left
    (fun options m => dict_set (candidate_label m) (FindMovie.title m) options)
    candidates [].

(** The sentiment column of the labelled frame. *)
Definition sentiment_column (df : Pandas.DataFrame App.LabelledRow)
  : Pandas.Series string :=
  map (fun r => App.sentiment (snd r)) df.

(** One more occurrence of [v] in a table of counts. *)
Fixpoint count_incr (v : string) (counts : list (string * nat))
  : list (string * nat) :=
  match counts with
  | [] => [(v, 1)]
  | (v', n) :: counts' =>
      if (v =? v')%string then (v', S n) :: counts'
      else (v', n) :: count_incr v counts'
  end.

(** [Series.value_counts()]: each distinct value with the number of its
    occurrences.  The order of the entries, which pandas sorts by
    count, is not modelled: [main] only looks entries up by value. *)
Definition value_counts (col : Pandas.Series string) : list (string * nat) :=
  fold_left (fun counts v => count_incr v counts) col [].

(** [counts.get(value, default)]. *)
Fixpoint counts_get (value : string) (default : nat)
  (counts : list (string * nat)) : nat :=
  match counts with
  | [] => default
  | (v', n) :: counts' =>
      if (value =? v')%string then n else counts_get value default counts'
  end.

(** [(df['sentiment'] == value).sum()]. *)
Definition sentiment_equal_sum (value : string)
  (df : Pandas.DataFrame App.LabelledRow) : nat :=
  List.length
    (filter (fun s => (s =? value)%string) (sentiment_column df)).

(** The order of the buckets from the most negative to the most
    positive; any other string is given 1 like "Neutral". *)
Definition bucket_rank (bucket : string) : nat :=
  if (bucket =? "Negative")%string then 0
  else if (bucket =? "Positive")%string then 2
  else 1.

End AppDisplay.

(* ===================================================================== *)
(** * Vocabulary of the extractor's call record                          *)
(* ===================================================================== *)

Module ScrapperLog.

Import Scrapper.

(** The click script was run on a button and returned. *)
Definition click_returned (entry : event * bool) : bool :=
  match entry with
  | (EvScript script, true) => (script =? click_script)%string
  | _ => false
  end.

(** The click script was run on a button, whether the call returned
    or raised. *)
Definition click_called (entry : event * bool) : bool :=
  match fst entry with
  | EvScript script => (script =? click_script)%string
  | _ => false
  end.

(** How the record of the button loop can end, after the text reads
    that returned without the word sought: with nothing more, or with
    the calls made on one button up to the first that raised, or up to
    the click. *)
Definition loop_endings : list (list (event * bool)) :=
  [ [];
    [(EvText, false)];
    [(EvText, true); (EvScript scroll_script, false)];
    [(EvText, true); (EvScript scroll_script, true);
     (EvSleep (1 # 2), false)];
    [(EvText, true); (EvScript scroll_script, true);
     (EvSleep (1 # 2), true); (EvScript click_script, false)];
    [(EvText, true); (EvScript scroll_script, true);
     (EvSleep (1 # 2), true); (EvScript click_script, true)] ].

(** A pause. *)
Definition is_sleep (e : event) : bool :=
  match e with
  | EvSleep _ => true
  | _ => false
  end.

End ScrapperLog.

(* ===================================================================== *)
(** * A machine that counts its browsers                                 *)
(* ===================================================================== *)

Module BrowserSamples.

(** The machine is the number of browser processes alive: creating a
    session starts one, [driver.quit()] ends one; the page has no
    review tag and [get_fails] makes the navigation raise. *)
Definition run_counting_browsers (get_fails : bool)
  : Eff.outcome (list string) * (nat * list (Scrapper.event * bool)) :=
  Scrapper.extract_imdb_reviews nat unit unit unit unit
    (fun _ alive => (Eff.Return tt, S alive))
    (fun _ _ alive =>
       if get_fails
       then (Eff.Raise (Eff.Exception "WebDriverException"), alive)
       else (Eff.Return tt, alive))
    (fun _ _ alive => (Eff.Return [], alive))
    (fun _ alive => (Eff.Return EmptyString, alive))
    (fun _ _ _ alive => (Eff.Return tt, alive))
    (fun _ alive => (Eff.Return tt, alive))
    (fun _ alive => (Eff.Return "<html></html>", alive))
    (fun _ alive => (Eff.Return tt, Nat.pred alive))
    (fun _ => tt)
    (fun _ _ => [])
    (fun _ => EmptyString)
    "https://www.imdb.com/title/tt0133093/reviews"
    Scrapper.default_waiting_timeout
    (0, []).

End BrowserSamples.
(* ===================================================================== *)
(** * Properties of the string primitives                                *)
(* ===================================================================== *)

Module PyFacts.

Ltac each_code_point c :=
  destruct c as [[] [] [] [] [] [] [] []].

Lemma word_not_space (c : ascii) :
  Py.is_word c = true -> Py.isspace c = false.
Proof. each_code_point c; vm_compute; intros H; congruence. Qed.

Lemma lower_char_idempotent (c : ascii) :
  Py.lower_char (Py.lower_char c) = Py.lower_char c.
Proof. each_code_point c; vm_compute; reflexivity. Qed.

Lemma append_assoc (a b c : string) :
  ((a ++ b) ++ c = a ++ (b ++ c))%string.
Proof. induction a as [| x a IH]; cbn; [| rewrite IH]; reflexivity. Qed.

Lemma append_nil_r (a : string) : (a ++ EmptyString = a)%string.
Proof. induction a as [| x a IH]; cbn; [| rewrite IH]; reflexivity. Qed.

Lemma all_chars_app (p : ascii -> bool) (a b : string) :
  Py.all_chars p (a ++ b)%string = Py.all_chars p a && Py.all_chars p b.
Proof.
  induction a as [| x a IH]; cbn; [reflexivity |].
  rewrite IH, andb_assoc. reflexivity.
Qed.

Lemma all_chars_impl (p q : ascii -> bool) (s : string) :
  (forall c, p c = true -> q c = true) ->
  Py.all_chars p s = true -> Py.all_chars q s = true.
Proof.
  intros Hpq. induction s as [| c s IH]; cbn; [reflexivity |].
  intros H. apply andb_true_iff in H. destruct H as [Hc Hs].
  rewrite (Hpq c Hc), (IH Hs). reflexivity.
Qed.

Lemma flush_nonempty (tok : string) : tok <> EmptyString -> Py.flush tok = [tok].
Proof. destruct tok; [congruence | reflexivity]. Qed.

(** Reading a run without whitespace only grows the current token. *)
Lemma split_from_run (w tok rest : string) :
  Py.all_chars (fun c => negb (Py.isspace c)) w = true ->
  Py.split_from tok (w ++ rest) = Py.split_from (tok ++ w) rest.
Proof.
  revert tok. induction w as [| c w IH]; cbn; intros tok H.
  - rewrite append_nil_r. reflexivity.
  - apply andb_true_iff in H. destruct H as [Hc Hw].
    apply negb_true_iff in Hc. rewrite Hc, (IH _ Hw), append_assoc.
    reflexivity.
Qed.

Lemma app_nonempty_r (a : string) (c : ascii) :
  (a ++ String c EmptyString)%string <> EmptyString.
Proof. destruct a; cbn; discriminate. Qed.

(** Every string [split] returns is a token all of whose code points
    satisfy [p], provided the code points of the text outside
    whitespace do. *)
Lemma split_from_tokens (p : ascii -> bool) (s tok : string) :
  Py.all_chars (fun c => Py.isspace c || p c) s = true ->
  Py.all_chars (fun c => negb (Py.isspace c) && p c) tok = true ->
  Forall (fun w => w <> EmptyString
                   /\ Py.all_chars (fun c => negb (Py.isspace c) && p c) w
                      = true)
         (Py.split_from tok s).
Proof.
  revert tok. induction s as [| c s IH]; cbn; intros tok Hs Htok.
  - destruct tok; cbn; constructor; [| constructor].
    split; [discriminate | exact Htok].
  - apply andb_true_iff in Hs. destruct Hs as [Hc Hs].
    destruct (Py.isspace c) eqn:Hsp.
    + apply Forall_app. split.
      * destruct tok; cbn; constructor; [| constructor].
        split; [discriminate | exact Htok].
      * apply IH; [exact Hs | reflexivity].
    + apply IH; [exact Hs |].
      rewrite all_chars_app, Htok. cbn. rewrite Hsp. cbn in Hc.
      rewrite Hc. reflexivity.
Qed.

Lemma split_tokens (s : string) : Forall Py.is_token (Py.split s).
Proof.
  unfold Py.split.
  assert (H : Py.all_chars (fun c => Py.isspace c || true) s = true).
  { induction s as [| c s IH]; cbn; [reflexivity |].
    rewrite orb_true_r. exact IH. }
  pose proof (split_from_tokens (fun _ => true) s EmptyString H eq_refl) as Hf.
  eapply Forall_impl; [| exact Hf].
  intros w [Hne Hw]. split; [exact Hne |].
  eapply all_chars_impl; [| exact Hw].
  intros c Hc. apply andb_true_iff in Hc. tauto.
Qed.

(** Splitting the tokens joined by single spaces gives them back. *)
Lemma split_join (l : list string) :
  Forall Py.is_token l -> Py.split (Py.join " " l) = l.
Proof.
  unfold Py.split. induction l as [| w l IH]; intros H; [reflexivity |].
  inversion H as [| ? ? [Hne Hw] Hl]; subst.
  destruct l as [| w' l].
  - cbn [Py.join]. rewrite <- (append_nil_r w) at 1.
    rewrite split_from_run by exact Hw. cbn.
    apply flush_nonempty. exact Hne.
  - change (Py.join " " (w :: w' :: l))
      with (w ++ String " "%char (Py.join " " (w' :: l)))%string.
    rewrite split_from_run by exact Hw.
    cbn [append Py.split_from].
    change (Py.isspace " "%char) with true. cbn iota.
    rewrite (flush_nonempty w Hne), (IH Hl). reflexivity.
Qed.

Lemma all_chars_join (p : ascii -> bool) (l : list string) :
  p " "%char = true ->
  Forall (fun w => Py.all_chars p w = true) l ->
  Py.all_chars p (Py.join " " l) = true.
Proof.
  intros Hsp. induction l as [| w l IH]; intros H; [reflexivity |].
  inversion H as [| ? ? Hw Hl]; subst.
  destruct l as [| w' l]; [exact Hw |].
  change (Py.join " " (w :: w' :: l))
    with (w ++ String " "%char (Py.join " " (w' :: l)))%string.
  rewrite all_chars_app, Hw. cbn [Py.all_chars andb].
  rewrite Hsp. apply IH. exact Hl.
Qed.

Lemma lower_fixed (s : string) :
  Py.all_chars (fun c => Ascii.eqb (Py.lower_char c) c) s = true ->
  Py.lower s = s.
Proof.
  induction s as [| c s IH]; cbn; [reflexivity |].
  intros H. apply andb_true_iff in H. destruct H as [Hc Hs].
  apply Ascii.eqb_eq in Hc. rewrite Hc, (IH Hs). reflexivity.
Qed.

Lemma filter_chars_fixed (keep : ascii -> bool) (s : string) :
  Py.all_chars keep s = true -> Py.filter_chars keep s = s.
Proof.
  induction s as [| c s IH]; cbn; [reflexivity |].
  intros H. apply andb_true_iff in H. destruct H as [Hc Hs].
  rewrite Hc, (IH Hs). reflexivity.
Qed.

Lemma filter_chars_all (keep : ascii -> bool) (s : string) :
  Py.all_chars keep (Py.filter_chars keep s) = true.
Proof.
  induction s as [| c s IH]; cbn; [reflexivity |].
  destruct (keep c) eqn:Hc; cbn; [rewrite Hc |]; exact IH.
Qed.

End PyFacts.

(* ===================================================================== *)
(** * Properties of the normalizer                                       *)
(* ===================================================================== *)

Module PreprocessorFacts.

Import PyFacts Preprocessor.

Lemma clean_char_not_space (c : ascii) :
  clean_char c = true -> negb (Py.isspace c) = true.
Proof.
  unfold clean_char. intros H. apply andb_true_iff in H.
  destruct H as [Hw _]. rewrite (word_not_space c Hw). reflexivity.
Qed.

Lemma clean_token_is_token (w : string) :
  clean_token w = true -> Py.is_token w.
Proof.
  unfold Py.is_token. destruct w as [| c w]; cbn [clean_token];
    [discriminate |].
  intros H. split; [discriminate |].
  eapply all_chars_impl; [| exact H]. exact clean_char_not_space.
Qed.

(** After the first two steps every code point is whitespace or a clean
    one. *)
Lemma cleaned_chars (x : string) :
  Py.all_chars (fun c => Py.isspace c || clean_char c)
               (Py.re_sub_non_word_space (Py.lower x)) = true.
Proof.
  unfold Py.re_sub_non_word_space.
  induction x as [| c x IH]; cbn; [reflexivity |].
  destruct (Py.is_word (Py.lower_char c) || Py.isspace (Py.lower_char c))
    eqn:Hk; [| exact IH].
  cbn. rewrite IH, andb_true_r.
  destruct (Py.isspace (Py.lower_char c)); [reflexivity |].
  rewrite orb_false_r in Hk. unfold clean_char.
  rewrite Hk, lower_char_idempotent, Ascii.eqb_refl. reflexivity.
Qed.

Lemma tokens_clean (x : string) :
  Forall (fun w => clean_token w = true) (tokens x).
Proof.
  unfold tokens, Py.split.
  pose proof (split_from_tokens clean_char _ EmptyString (cleaned_chars x) eq_refl)
    as H.
  eapply Forall_impl; [| exact H].
  intros w [Hne Hw]. destruct w as [| c w]; [congruence |].
  cbn [clean_token]. eapply all_chars_impl; [| exact Hw].
  intros a Ha. apply andb_true_iff in Ha. tauto.
Qed.

Lemma Forall_filter {A : Type} (P : A -> Prop) (f : A -> bool) (l : list A) :
  Forall P l -> Forall P (filter f l).
Proof.
  induction 1 as [| a l Ha Hl IH]; cbn; [constructor |].
  destruct (f a); [constructor |]; assumption.
Qed.

Section WithNLTK.

Variable stop_words : string -> bool.
Variable lemmatize : string -> string.

(** The two [split]/[join] rounds of the source amount to one: the
    review is split once, filtered, lemmatized and joined. *)
Lemma preprocess_review_tokens (x : string) :
  preprocess_review stop_words lemmatize x
  = Py.join " " (map lemmatize
                     (filter (fun word => negb (stop_words word)) (tokens x))).
Proof.
  unfold preprocess_review, lemmatize_words, remove_stopwords.
  fold (tokens x).
  rewrite split_join; [reflexivity |].
  apply Forall_filter. eapply Forall_impl; [| apply tokens_clean].
  exact clean_token_is_token.
Qed.

Lemma preprocess_reviews_map (l : list string) :
  preprocess_reviews stop_words lemmatize l
  = map (preprocess_review stop_words lemmatize) l.
Proof.
  unfold preprocess_reviews, preprocess_review. rewrite !map_map.
  reflexivity.
Qed.


(** When every token is a stopword nothing is left. *)
Lemma all_stopwords_empty (x : string) :
  Forall (fun word => stop_words word = true) (tokens x) ->
  preprocess_review stop_words lemmatize x = EmptyString.
Proof.
  intros H. rewrite preprocess_review_tokens.
  replace (filter (fun word => negb (stop_words word)) (tokens x))
    with (@nil string); [reflexivity |].
  induction H as [| w l Hw Hl IH]; cbn; [reflexivity |].
  rewrite Hw. exact IH.
Qed.

(** Clean kept tokens that the lemmatizer leaves alone come back from
    a second pass as they are. *)
Lemma stable_tokens_again (l : list string) :
  Forall (fun w => clean_token w = true /\ stop_words w = false
                   /\ lemmatize w = w) l ->
  tokens (Py.join " " l) = l
  /\ map lemmatize (filter (fun word => negb (stop_words word)) l) = l.
Proof.
  intros H. split.
  - assert (Hlow : Py.lower (Py.join " " l) = Py.join " " l).
    { apply lower_fixed. apply all_chars_join; [reflexivity |].
      eapply Forall_impl; [| exact H].
      intros w (Hc & _ & _). destruct w; [discriminate |].
      cbn [clean_token] in Hc. eapply all_chars_impl; [| exact Hc].
      intros c Hcc. unfold clean_char in Hcc.
      apply andb_true_iff in Hcc. tauto. }
    assert (Hsub : Py.re_sub_non_word_space (Py.join " " l)
                   = Py.join " " l).
    { apply filter_chars_fixed. apply all_chars_join; [reflexivity |].
      eapply Forall_impl; [| exact H].
      intros w (Hc & _ & _). destruct w; [discriminate |].
      cbn [clean_token] in Hc. eapply all_chars_impl; [| exact Hc].
      intros c Hcc. unfold clean_char in Hcc.
      apply andb_true_iff in Hcc. destruct Hcc as [Hw _].
      rewrite Hw. reflexivity. }
    unfold tokens. rewrite Hlow, Hsub.
    apply split_join. eapply Forall_impl; [| exact H].
    intros w (Hc & _ & _). apply clean_token_is_token. exact Hc.
  - induction H as [| w l (Hc & Hs & Hf) Hl IH]; cbn; [reflexivity |].
    rewrite Hs. cbn. rewrite Hf, IH. reflexivity.
Qed.

Lemma preprocess_review_twice (t : string) :
  Forall (fun w => clean_token w = true /\ stop_words w = false
                   /\ lemmatize w = w)
         (map lemmatize
              (filter (fun word => negb (stop_words word)) (tokens t))) ->
  preprocess_review stop_words lemmatize
    (preprocess_review stop_words lemmatize t)
  = preprocess_review stop_words lemmatize t.
Proof.
  intros H.
  rewrite (preprocess_review_tokens t).
  rewrite preprocess_review_tokens.
  destruct (stable_tokens_again _ H) as [Ht Hm].
  rewrite Ht, Hm. reflexivity.
Qed.

(** A lemmatizer that behaves on all clean kept tokens does so on the
    ones of any review. *)
Lemma lemmas_stable (x : string) :
  (forall w, clean_token w = true -> stop_words w = false ->
             clean_token (lemmatize w) = true
             /\ stop_words (lemmatize w) = false
             /\ lemmatize (lemmatize w) = lemmatize w) ->
  Forall (fun w => clean_token w = true /\ stop_words w = false
                   /\ lemmatize w = w)
         (map lemmatize
              (filter (fun word => negb (stop_words word)) (tokens x))).
Proof.
  intros Hlem. pose proof (tokens_clean x) as H.
  induction H as [| w l Hw Hl IH]; cbn; [constructor |].
  destruct (stop_words w) eqn:Hs; cbn; [exact IH |].
  constructor; [| exact IH]. apply Hlem; assumption.
Qed.

End WithNLTK.

Example preprocess_review_example :
  preprocess_review Samples.stop_words Samples.lemmatize_movies
    "The movies, it was GREAT!" = "movie great".
Proof. reflexivity. Qed.

(** C3.  The second step keeps the underscore, which is neither
    alphanumeric nor whitespace: on "a_b!" the text after the first two
    steps is "a_b", and the underscore reaches the output. *)
Theorem underscore_survives_cleaning :
  Py.re_sub_non_word_space (Py.lower "a_b!") = "a_b"
  /\ Py.some_char (fun c => negb (Py.isalnum c || Py.isspace c))
                  (Py.re_sub_non_word_space (Py.lower "a_b!")) = true
  /\ (forall stop_words lemmatize,
        preprocess_review stop_words lemmatize "a_b!"
        = if stop_words "a_b" then EmptyString else lemmatize "a_b").
Proof.
  split; [reflexivity |]. split; [reflexivity |].
  intros stop_words lemmatize.
  unfold preprocess_review, lemmatize_words, remove_stopwords.
  change (Py.split (Py.re_sub_non_word_space (Py.lower "a_b!")))
    with ["a_b"].
  cbn [filter]. destruct (stop_words "a_b"); reflexivity.
Qed.

(** C4, as stated, fails: with "can" a stopword and "cans" lemmatized
    to "can", a second pass empties what the first pass returned. *)
Lemma normalize_twice_differs :
  preprocess_review Samples.stop_words Samples.lemmatize_cans
    (preprocess_review Samples.stop_words Samples.lemmatize_cans
       "Soda cans!")
  <> preprocess_review Samples.stop_words Samples.lemmatize_cans
       "Soda cans!".
Proof. vm_compute. discriminate. Qed.

(** C4, amended.  Normalizing a review twice equals normalizing it once
    whenever every word the first pass puts out for that review (the
    lemma of each of its tokens that the stopword filter keeps) is a
    clean token, is not a stopword, and is its own lemma.  The
    condition bears on the review alone, not on the lemmatizer as a
    whole. *)
Theorem normalize_idempotent :
  forall (stop_words : string -> bool) (lemmatize : string -> string)
         (t : string),
    Forall (fun w => clean_token w = true /\ stop_words w = false
                     /\ lemmatize w = w)
           (map lemmatize
                (filter (fun word => negb (stop_words word)) (tokens t))) ->
    preprocess_review stop_words lemmatize
      (preprocess_review stop_words lemmatize t)
    = preprocess_review stop_words lemmatize t.
Proof.
  intros stop_words lemmatize t H.
  apply preprocess_review_twice. exact H.
Qed.

Lemma normalize_idempotent_witness :
  preprocess_review Samples.stop_words Samples.lemmatize_cans
    (preprocess_review Samples.stop_words Samples.lemmatize_cans
       "The movies, it was GREAT!")
  = preprocess_review Samples.stop_words Samples.lemmatize_cans
      "The movies, it was GREAT!".
Proof.
  apply (normalize_idempotent Samples.stop_words Samples.lemmatize_cans
           "The movies, it was GREAT!").
  vm_compute. repeat constructor.
Defined.

(** With a lemmatizer that behaves on every clean kept token the
    condition holds of every review. *)
Lemma normalize_idempotent_everywhere
  (stop_words : string -> bool) (lemmatize : string -> string) :
  (forall w, clean_token w = true -> stop_words w = false ->
             clean_token (lemmatize w) = true
             /\ stop_words (lemmatize w) = false
             /\ lemmatize (lemmatize w) = lemmatize w) ->
  forall t,
    preprocess_review stop_words lemmatize
      (preprocess_review stop_words lemmatize t)
    = preprocess_review stop_words lemmatize t.
Proof.
  intros H t. apply preprocess_review_twice. apply lemmas_stable. exact H.
Qed.

Lemma map_filter_fixed {A : Type} (f : A -> bool) (g : A -> A) (l : list A) :
  map g (filter f l) = l -> Forall (fun a => f a = true /\ g a = a) l.
Proof.
  induction l as [| a l IH]; cbn; intros H; [constructor |].
  destruct (f a) eqn:Hf; cbn in H.
  - injection H as Ha Hl. constructor; [split; [exact Hf | exact Ha] |].
    apply IH. exact Hl.
  - apply (f_equal (@List.length A)) in H. rewrite length_map in H. cbn in H.
    pose proof (filter_length_le f l). lia.
Qed.

(** The condition is as weak as can be asked for words that are clean
    tokens and lemmas that are tokens: there, normalizing twice equals
    normalizing once only if no word of the first pass is a stopword
    and each is its own lemma. *)
Lemma normalize_idempotent_only_if
  (stop_words : string -> bool) (lemmatize : string -> string) (t : string) :
  let words :=
    map lemmatize (filter (fun word => negb (stop_words word)) (tokens t)) in
  Forall (fun w => clean_token w = true) words ->
  Forall Py.is_token
         (map lemmatize (filter (fun word => negb (stop_words word)) words)) ->
  preprocess_review stop_words lemmatize
    (preprocess_review stop_words lemmatize t)
  = preprocess_review stop_words lemmatize t ->
  Forall (fun w => stop_words w = false /\ lemmatize w = w) words.
Proof.
  cbv zeta. intros Hclean Htok Hidem.
  rewrite (preprocess_review_tokens stop_words lemmatize t) in Hidem.
  rewrite preprocess_review_tokens in Hidem.
  assert (Hagain :
    tokens (Py.join " "
              (map lemmatize
                 (filter (fun word => negb (stop_words word)) (tokens t))))
    = map lemmatize (filter (fun word => negb (stop_words word)) (tokens t))).
  { apply (stable_tokens_again (fun _ => false) (fun w => w)).
    eapply Forall_impl; [| exact Hclean]. cbn. auto. }
  rewrite Hagain in Hidem.
  apply (f_equal Py.split) in Hidem.
  rewrite (split_join _ Htok) in Hidem.
  rewrite split_join in Hidem
    by (eapply Forall_impl; [| exact Hclean]; exact clean_token_is_token).
  apply map_filter_fixed in Hidem.
  eapply Forall_impl; [| exact Hidem].
  cbn. intros w [Hs Hf]. apply negb_true_iff in Hs. auto.
Qed.

(** C5.  A review whose tokens, after lowercasing and punctuation
    removal, are all stopwords (in particular the empty review)
    normalizes to the empty string, and the scorer gives the empty
    string polarity 0.0 and subjectivity 0.0. *)
Theorem all_stopwords_neutral :
  forall (stop_words : string -> bool) (lemmatize : string -> string)
         (lexicon_score : string -> Float.float * Float.float) (x : string),
    Forall (fun word => stop_words word = true) (tokens x) ->
    preprocess_review stop_words lemmatize x = EmptyString
    /\ preprocess_review stop_words lemmatize EmptyString = EmptyString
    /\ TextBlob.sentiment lexicon_score EmptyString = (S754_zero false, S754_zero false).
Proof.
  intros stop_words lemmatize lexicon_score x H.
  split; [apply all_stopwords_empty; exact H |].
  split; reflexivity.
Qed.

Lemma all_stopwords_neutral_witness :
  preprocess_review Samples.stop_words Samples.lemmatize_movies
    "It was... THE, I; a!" = EmptyString
  /\ preprocess_review Samples.stop_words Samples.lemmatize_movies EmptyString = EmptyString
  /\ TextBlob.sentiment (fun _ => (Float.lit_0_3, Float.lit_0_3)) EmptyString
     = (S754_zero false, S754_zero false).
Proof.
  apply (all_stopwords_neutral Samples.stop_words Samples.lemmatize_movies).
  vm_compute. repeat constructor.
Defined.

End PreprocessorFacts.


(* ===================================================================== *)
(** * Properties of the movie resolver                                   *)
(* ===================================================================== *)

Module FindMovieFacts.

Import Eff FindMovie.

Section WithService.

Variable Service : Type.
Variable ia_search_movie :
  string -> Service -> outcome (list Movie) * Service.

Lemma print_results_run (l : list (nat * Movie)) (w : World Service) :
  print_results Service l w
  = (Return tt,
     mkWorld (service w)
             (stdout w ++ map (fun im => result_line (fst im) (snd im)) l)
             (lookups w)).
Proof.
  revert w. induction l as [| [i movie] l IH]; intros w; cbn.
  - rewrite app_nil_r. destruct w; reflexivity.
  - unfold bind, print. rewrite IH. cbn. rewrite <- app_assoc. reflexivity.
Qed.

Lemma search_movies_run (movie_name : string) (w : World Service) :
  search_movies Service ia_search_movie movie_name w
  = match ia_search_movie movie_name (service w) with
    | (Return results, sv) =>
        (Return results,
         mkWorld sv
                 (stdout w
                    ++ map (fun im => result_line (fst im) (snd im))
                           (Py.enumerate (firstn 10 results)))
                 (lookups w ++ [movie_name]))
    | (Raise e, sv) =>
        (Raise e, mkWorld sv (stdout w) (lookups w ++ [movie_name]))
    end.
Proof.
  unfold search_movies, bind, search_movie.
  destruct (ia_search_movie movie_name (service w)) as [[results | e] sv];
    [| reflexivity].
  rewrite print_results_run. reflexivity.
Qed.

End WithService.

(** C6, as stated, fails: when the lookup yields eleven results,
    [search_movies] returns all eleven. *)
Lemma search_movies_returns_eleven :
  match fst (search_movies unit Samples.lookup_eleven "matrix"
                           Samples.fresh_world) with
  | Return results => List.length results = 11 /\ ~ List.length results <= 10
  | Raise _ => False
  end.
Proof. cbn. split; [reflexivity | lia]. Qed.

(** C6, amended.  [search_movies] returns the whole result of the
    lookup, in the lookup's order, printing its first 10 entries; the
    cap is put by the caller: the candidates [main] keeps are the first
    10 of them, [min 10 n] in number. *)
Theorem search_movies_whole_candidates_capped :
  forall (Service : Type)
         (ia_search_movie : string -> Service -> outcome (list Movie) * Service)
         (query : string) (w : World Service),
    match ia_search_movie query (service w) with
    | (Return results, sv) =>
        search_movies Service ia_search_movie query w
        = (Return results,
           mkWorld sv
                   (stdout w
                      ++ map (fun im => result_line (fst im) (snd im))
                             (Py.enumerate (firstn 10 results)))
                   (lookups w ++ [query]))
        /\ fst (App.candidates Service ia_search_movie query w)
           = Return (firstn 10 results)
        /\ List.length (firstn 10 results)
           = Nat.min 10 (List.length results)
    | (Raise e, sv) =>
        fst (search_movies Service ia_search_movie query w) = Raise e
        /\ fst (App.candidates Service ia_search_movie query w) = Raise e
    end.
Proof.
  intros Service ia_search_movie query w.
  pose proof (search_movies_run Service ia_search_movie query w) as Hrun.
  unfold App.candidates, App.get_movie_candidates, bind.
  destruct (ia_search_movie query (service w)) as [[results | e] sv];
    rewrite Hrun; cbn [fst].
  - split; [reflexivity |]. split; [reflexivity | apply length_firstn].
  - split; reflexivity.
Qed.

(** C7.  [find_and_get_reviews_link] sends one lookup, for the title it
    is given, and answers from that lookup alone: the link
    "https://www.imdb.com/title/tt<movieID>/reviews" of its first
    result, or [None] when it has no result. *)
Theorem reviews_link_of_first_result :
  forall (Service : Type)
         (ia_search_movie : string -> Service -> outcome (list Movie) * Service)
         (movie_name : string) (w : World Service),
    let run := find_and_get_reviews_link Service ia_search_movie movie_name w in
    fst run
    = match fst (ia_search_movie movie_name (service w)) with
      | Return (movie :: _) =>
          Return (Some ("https://www.imdb.com/title/tt" ++ movieID movie
                          ++ "/reviews")%string)
      | Return [] => Return None
      | Raise e => Raise e
      end
    /\ lookups (snd run) = lookups w ++ [movie_name]
    /\ service (snd run) = snd (ia_search_movie movie_name (service w)).
Proof.
  intros Service ia_search_movie movie_name w. cbv zeta.
  unfold find_and_get_reviews_link, bind, search_movie.
  destruct (ia_search_movie movie_name (service w))
    as [[[| movie results] | e] sv]; cbn; repeat split.
Qed.

End FindMovieFacts.

(* ===================================================================== *)
(** * Properties of the review extractor                                 *)
(* ===================================================================== *)

Module ScrapperFacts.

Import Eff Scrapper.

Ltac log_eq :=
  repeat first [rewrite <- app_assoc | progress cbn [app returned]];
  reflexivity.

Section Recording.

Variable Machine : Type.
Variable kind : event -> bool.

Lemma appends_ret {A : Type} (a : A) :
  appends kind (@ret (Machine * list (event * bool)) A a).
Proof. intros s. exists []. cbn. rewrite app_nil_r. auto. Qed.

Lemma appends_call {A : Type} (ev : event)
  (op : Machine -> outcome A * Machine) :
  kind ev = true -> appends kind (call Machine ev op).
Proof.
  intros Hev s. unfold call. destruct (op (fst s)) as [r m].
  exists [(ev, returned r)]. cbn. rewrite Hev. auto.
Qed.

Lemma appends_bind {A B : Type}
  (c : M (Machine * list (event * bool)) A)
  (f : A -> M (Machine * list (event * bool)) B) :
  appends kind c -> (forall a, appends kind (f a)) ->
  appends kind (bind c f).
Proof.
  intros Hc Hf s. unfold bind.
  destruct (Hc s) as (e1 & E1 & K1).
  destruct (c s) as [[a | e] s1]; cbn in E1.
  - destruct (Hf a s1) as (e2 & E2 & K2).
    exists (e1 ++ e2). rewrite E2, E1, app_assoc, forallb_app, K1, K2. auto.
  - exists e1. auto.
Qed.

Lemma appends_try_except {A : Type}
  (c h : M (Machine * list (event * bool)) A) :
  appends kind c -> appends kind h ->
  appends kind (try_except_Exception c h).
Proof.
  intros Hc Hh s. unfold try_except_Exception.
  destruct (Hc s) as (e1 & E1 & K1).
  destruct (c s) as [[a | [what | what]] s1]; cbn in E1;
    try (exists e1; auto; fail).
  destruct (Hh s1) as (e2 & E2 & K2).
  exists (e1 ++ e2). rewrite E2, E1, app_assoc, forallb_app, K1, K2. auto.
Qed.

End Recording.

Section WithBrowser.

Variables Machine Driver Element Soup Tag : Type.
Variable webdriver_Chrome : list string -> Machine -> outcome Driver * Machine.
Variable driver_get : Driver -> string -> Machine -> outcome unit * Machine.
Variable driver_find_elements :
  Driver -> string -> Machine -> outcome (list Element) * Machine.
Variable element_text : Element -> Machine -> outcome string * Machine.
Variable driver_execute_script :
  Driver -> string -> Element -> Machine -> outcome unit * Machine.
Variable time_sleep : Q -> Machine -> outcome unit * Machine.
Variable driver_page_source : Driver -> Machine -> outcome string * Machine.
Variable driver_quit : Driver -> Machine -> outcome unit * Machine.
Variable BeautifulSoup : string -> Soup.
Variable soup_find_all_div : Soup -> string -> list Tag.
Variable tag_get_text : Tag -> string.

Lemma click_all_button_plain (driver : Driver) (all_buttons : list Element) :
  appends is_plain
    (click_all_button Machine Driver Element element_text
       driver_execute_script time_sleep driver all_buttons).
Proof.
  induction all_buttons as [| button rest IH]; cbn.
  - apply appends_ret.
  - apply appends_bind; [apply appends_call; reflexivity |].
    intros text. destruct (Py.contains "All" text); [| exact IH].
    repeat (apply appends_bind; [apply appends_call; reflexivity | intros _]).
    apply appends_ret.
Qed.

Lemma locate_and_click_plain (driver : Driver) :
  appends is_plain
    (locate_and_click Machine Driver Element driver_find_elements
       element_text driver_execute_script time_sleep driver).
Proof.
  unfold locate_and_click. apply appends_try_except.
  - apply appends_bind; [apply appends_call; reflexivity |].
    intros all_buttons. apply click_all_button_plain.
  - apply appends_ret.
Qed.

Lemma select_reviews_run (soup : Soup)
  (s : Machine * list (event * bool)) :
  select_reviews Machine Soup Tag soup_find_all_div tag_get_text soup s
  = (Return (fst (selection_of Soup Tag soup_find_all_div tag_get_text soup)),
     (fst s,
      snd s ++ snd (selection_of Soup Tag soup_find_all_div tag_get_text soup))).
Proof.
  unfold select_reviews, selection_of, bind, find_all, ret.
  destruct (soup_find_all_div soup main_class) as [| tag tags]; cbn.
  - rewrite <- app_assoc. reflexivity.
  - reflexivity.
Qed.

(** The body of the outer [try]: plain calls, and then either an
    exception or the selection on the page that was read. *)
Lemma session_run (driver : Driver) (url : string) (waiting_timeout : Q)
  (s : Machine * list (event * bool)) :
  exists entries,
    forallb (fun entry => is_plain (fst entry)) entries = true
    /\ ((exists e m,
           session Machine Driver Element Soup Tag driver_get
             driver_find_elements element_text driver_execute_script
             time_sleep driver_page_source BeautifulSoup soup_find_all_div
             tag_get_text driver url waiting_timeout s
           = (Raise e, (m, snd s ++ entries)))
        \/ (exists html m,
              let sel := selection_of Soup Tag soup_find_all_div tag_get_text
                           (BeautifulSoup html) in
              session Machine Driver Element Soup Tag driver_get
                driver_find_elements element_text driver_execute_script
                time_sleep driver_page_source BeautifulSoup soup_find_all_div
                tag_get_text driver url waiting_timeout s
              = (Return (fst sel), (m, snd s ++ entries ++ snd sel)))).
Proof.
  remember (session _ _ _ _ _ _ _ _ _ _ _ _ _ _ _ _ _ _) as run eqn:Hrun.
  revert run Hrun.
  unfold session. cbn [negb]. unfold bind at 1. unfold call at 1.
  destruct (driver_get driver url (fst s)) as [[[] | e] m1]; cbn [fst snd].
  2: { intros run ->. exists [(EvGet url, false)]. split; [reflexivity |].
       left. exists e, m1. reflexivity. }
  unfold bind at 1.
  destruct (locate_and_click_plain driver (m1, snd s ++ [(EvGet url, true)]))
    as (e1 & E1 & K1).
  destruct (locate_and_click _ _ _ _ _ _ _ _ _) as [[clicked | e] [m2 log2]].
  2: { cbn in E1. subst log2. intros run ->.
       exists ((EvGet url, true) :: e1).
       split; [exact K1 |]. left. exists e, m2.
       log_eq. }
  cbn in E1. subst log2.
  set (pause := if clicked then waiting_timeout else 3%Q).
  assert (Hpause :
    (if clicked
     then call Machine (EvSleep waiting_timeout) (time_sleep waiting_timeout)
     else call Machine (EvSleep 3) (time_sleep 3))
    = call Machine (EvSleep pause) (time_sleep pause))
    by (destruct clicked; reflexivity).
  rewrite Hpause. unfold bind at 1. unfold call at 1. cbn [fst snd].
  destruct (time_sleep pause m2) as [[[] | e] m3].
  2: { intros run ->.
       exists ((EvGet url, true) :: e1 ++ [(EvSleep pause, false)]).
       split; [cbn; rewrite forallb_app, K1; reflexivity |].
       left. exists e, m3. log_eq. }
  unfold bind at 1. unfold call at 1. cbn [fst snd].
  destruct (driver_page_source driver m3) as [[html | e] m4].
  2: { intros run ->.
       exists ((EvGet url, true) :: e1 ++ [(EvSleep pause, true);
                                           (EvPageSource, false)]).
       split; [cbn; rewrite forallb_app, K1; reflexivity |].
       left. exists e, m4. log_eq. }
  rewrite select_reviews_run. cbn [fst snd]. intros run ->.
  exists ((EvGet url, true) :: e1 ++ [(EvSleep pause, true);
                                      (EvPageSource, true)]).
  split; [cbn; rewrite forallb_app, K1; reflexivity |].
  right. exists html, m4. cbv zeta. log_eq.
Qed.

Lemma plain_no_calls (kind : event -> bool) (entries : list (event * bool)) :
  (forall e, is_plain e = true -> kind e = false) ->
  forallb (fun entry => is_plain (fst entry)) entries = true ->
  calls_of kind entries = [].
Proof.
  intros Hk. induction entries as [| x l IH]; cbn; [reflexivity |].
  intros H. apply andb_true_iff in H. destruct H as [Hx Hl].
  rewrite (Hk _ Hx). apply IH. exact Hl.
Qed.

Lemma plain_not_quit (e : event) : is_plain e = true -> is_quit e = false.
Proof. destruct e; cbn; congruence. Qed.

Lemma plain_not_find_all (e : event) :
  is_plain e = true -> is_find_all e = false.
Proof. destruct e; cbn; congruence. Qed.

Lemma selection_calls (soup : Soup) :
  let sel := selection_of Soup Tag soup_find_all_div tag_get_text soup in
  calls_of is_find_all (snd sel) = snd sel /\ calls_of is_quit (snd sel) = [].
Proof.
  unfold selection_of.
  destruct (soup_find_all_div soup main_class); split; reflexivity.
Qed.

(** How a whole run goes: without a session nothing else happens; with
    one, the body runs, then [driver.quit()], whose exception, if any,
    replaces the outcome of the body. *)
Lemma extract_run (url : string) (waiting_timeout : Q) (m : Machine) :
  let run :=
    extract_imdb_reviews Machine Driver Element Soup Tag webdriver_Chrome
      driver_get driver_find_elements element_text driver_execute_script
      time_sleep driver_page_source driver_quit BeautifulSoup
      soup_find_all_div tag_get_text url waiting_timeout (m, []) in
  match webdriver_Chrome chrome_arguments m with
  | (Raise e, m1) => run = (Raise e, (m1, [(EvChrome, false)]))
  | (Return driver, m1) =>
      exists entries m2,
        forallb (fun entry => is_plain (fst entry)) entries = true
        /\ let released := driver_quit driver m2 in
           let after (r : outcome (list string)) :=
             match fst released with
             | Return _ => r
             | Raise e' => Raise e'
             end in
           (exists e,
               fst (session Machine Driver Element Soup Tag driver_get
                      driver_find_elements element_text driver_execute_script
                      time_sleep driver_page_source BeautifulSoup
                      soup_find_all_div tag_get_text driver url
                      waiting_timeout (m1, [(EvChrome, true)]))
               = Raise e
               /\ run = (after (Raise e),
                      (snd released,
                       (EvChrome, true) :: entries
                         ++ [(EvQuit, returned (fst released))])))
           \/ (exists html,
                 let sel := selection_of Soup Tag soup_find_all_div
                              tag_get_text (BeautifulSoup html) in
                 fst (session Machine Driver Element Soup Tag driver_get
                      driver_find_elements element_text driver_execute_script
                      time_sleep driver_page_source BeautifulSoup
                      soup_find_all_div tag_get_text driver url
                      waiting_timeout (m1, [(EvChrome, true)]))
                 = Return (fst sel)
                 /\ run = (after (Return (fst sel)),
                        (snd released,
                         (EvChrome, true) :: entries ++ snd sel
                           ++ [(EvQuit, returned (fst released))])))
  end.
Proof.
  cbv zeta.
  remember (extract_imdb_reviews _ _ _ _ _ _ _ _ _ _ _ _ _ _ _ _ _ _ _)
    as run eqn:Hrun.
  revert run Hrun.
  unfold extract_imdb_reviews. unfold bind at 1. unfold call at 1.
  cbv beta. cbn [fst snd app].
  destruct (webdriver_Chrome chrome_arguments m) as [[driver | e] m1];
    [| intros run ->; reflexivity].
  unfold try_finally. cbn [returned].
  destruct (session_run driver url waiting_timeout (m1, [(EvChrome, true)]))
    as (entries & Hplain & [(e & m2 & Hs) | (html & m2 & Hs)]);
    cbv zeta in Hs; rewrite Hs; intros run ->; exists entries, m2;
    (split; [exact Hplain |]); unfold call; cbn [fst snd];
    destruct (driver_quit driver m2) as [[[] | e'] m3]; cbn [fst snd].
  - left. exists e. split; [reflexivity | log_eq].
  - left. exists e. split; [reflexivity | log_eq].
  - right. exists html. split; [reflexivity | log_eq].
  - right. exists html. split; [reflexivity | log_eq].
Qed.

End WithBrowser.

Example empty_page_run :
  Samples.run_on_empty_page false
  = (Return [],
     (tt,
      [(EvChrome, true);
       (EvGet "https://www.imdb.com/title/tt0133093/reviews", true);
       (EvFindElements see_more_xpath, true);
       (EvSleep 3, true);
       (EvPageSource, true);
       (EvFindAll main_class 0, true);
       (EvFindAll fallback_class 0, true);
       (EvQuit, true)])).
Proof. reflexivity. Qed.

Example failed_navigation_run :
  Samples.run_on_empty_page true
  = (Raise (Exception "WebDriverException"),
     (tt,
      [(EvChrome, true);
       (EvGet "https://www.imdb.com/title/tt0133093/reviews", false);
       (EvQuit, true)])).
Proof. reflexivity. Qed.

(** C8.  The selection code calls the main selector once; it calls the
    fallback selector, once, exactly when the main one found no tag;
    its result is the texts of the tags found, in the order found, so
    the empty list when both found none.  In a whole run the selector
    calls recorded are none (the run failed earlier), one successful
    main call, or a main call that found nothing followed by one
    fallback call; the run then returns what the selection gave, unless
    [driver.quit()] raised. *)
Theorem fallback_only_when_main_empty :
  forall (Machine Driver Element Soup Tag : Type)
         (webdriver_Chrome : list string -> Machine -> outcome Driver * Machine)
         (driver_get : Driver -> string -> Machine -> outcome unit * Machine)
         (driver_find_elements :
            Driver -> string -> Machine -> outcome (list Element) * Machine)
         (element_text : Element -> Machine -> outcome string * Machine)
         (driver_execute_script :
            Driver -> string -> Element -> Machine -> outcome unit * Machine)
         (time_sleep : Q -> Machine -> outcome unit * Machine)
         (driver_page_source : Driver -> Machine -> outcome string * Machine)
         (driver_quit : Driver -> Machine -> outcome unit * Machine)
         (BeautifulSoup : string -> Soup)
         (soup_find_all_div : Soup -> string -> list Tag)
         (tag_get_text : Tag -> string),
    (forall (soup : Soup) (s : Machine * list (event * bool)),
        select_reviews Machine Soup Tag soup_find_all_div tag_get_text soup s
        = match soup_find_all_div soup main_class with
          | [] =>
              (Return (map tag_get_text (soup_find_all_div soup fallback_class)),
               (fst s,
                snd s ++
                [(EvFindAll main_class 0, true);
                 (EvFindAll fallback_class
                    (List.length (soup_find_all_div soup fallback_class)),
                  true)]))
          | tag :: tags =>
              (Return (map tag_get_text (tag :: tags)),
               (fst s,
                snd s ++
                [(EvFindAll main_class (S (List.length tags)), true)]))
          end)
    /\ (forall (url : string) (waiting_timeout : Q) (m : Machine),
          let run :=
            extract_imdb_reviews Machine Driver Element Soup Tag webdriver_Chrome
          driver_get driver_find_elements element_text driver_execute_script
          time_sleep driver_page_source driver_quit BeautifulSoup
          soup_find_all_div tag_get_text url waiting_timeout (m, []) in
          let selector_calls := calls_of is_find_all (snd (snd run)) in
          let quit_raised :=
            exists e log, fst run = Raise e
                          /\ snd (snd run) = log ++ [(EvQuit, false)] in
          selector_calls = []
          \/ (exists soup tag tags,
                soup_find_all_div soup main_class = tag :: tags
                /\ selector_calls
                   = [(EvFindAll main_class (S (List.length tags)), true)]
                /\ (fst run = Return (map tag_get_text (tag :: tags))
                    \/ quit_raised))
          \/ (exists soup,
                soup_find_all_div soup main_class = []
                /\ selector_calls
                   = [(EvFindAll main_class 0, true);
                      (EvFindAll fallback_class
                         (List.length (soup_find_all_div soup fallback_class)),
                       true)]
                /\ (fst run
                    = Return (map tag_get_text
                                  (soup_find_all_div soup fallback_class))
                    \/ quit_raised))).
Proof.
  intros. split.
  - intros soup s. rewrite select_reviews_run. unfold selection_of.
    destruct (soup_find_all_div soup main_class); reflexivity.
  - intros url waiting_timeout m. cbv zeta.
    pose proof (extract_run Machine Driver Element Soup Tag webdriver_Chrome
                  driver_get driver_find_elements element_text
                  driver_execute_script time_sleep driver_page_source
                  driver_quit BeautifulSoup soup_find_all_div tag_get_text
                  url waiting_timeout m) as Hrun.
    cbv zeta in Hrun.
    destruct (webdriver_Chrome chrome_arguments m) as [[driver | e] m1].
    2: { rewrite Hrun. left. reflexivity. }
    destruct Hrun
      as (entries & m2 & Hplain & [(e & _ & Hrun) | (html & _ & Hrun)]);
      rewrite Hrun; cbn [fst snd];
      pose proof (plain_no_calls is_find_all entries plain_not_find_all Hplain)
        as Hnone.
    + left. unfold calls_of in *. cbn [filter fst is_find_all].
      rewrite filter_app, Hnone. reflexivity.
    + right.
      assert (Hcalls :
        calls_of is_find_all
          ((EvChrome, true) :: entries
             ++ snd (selection_of Soup Tag soup_find_all_div tag_get_text
                       (BeautifulSoup html))
             ++ [(EvQuit, returned (fst (driver_quit driver m2)))])
        = snd (selection_of Soup Tag soup_find_all_div tag_get_text
                 (BeautifulSoup html))).
      { destruct (selection_calls Soup Tag soup_find_all_div tag_get_text
                    (BeautifulSoup html)) as [Hsel _].
        unfold calls_of in *. cbn [filter fst is_find_all].
        rewrite !filter_app, Hnone, Hsel. cbn. apply app_nil_r. }
      rewrite Hcalls. clear Hcalls.
      assert (Hout :
        match fst (driver_quit driver m2) with
        | Return _ =>
            Return (fst (selection_of Soup Tag soup_find_all_div tag_get_text
                           (BeautifulSoup html)))
        | Raise e' => Raise e'
        end
        = Return (fst (selection_of Soup Tag soup_find_all_div tag_get_text
                         (BeautifulSoup html)))
        \/ (exists e log,
              match fst (driver_quit driver m2) with
              | Return _ =>
                  Return (fst (selection_of Soup Tag soup_find_all_div
                                 tag_get_text (BeautifulSoup html)))
              | Raise e' => Raise e'
              end = Raise e
              /\ (EvChrome, true) :: entries
                   ++ snd (selection_of Soup Tag soup_find_all_div tag_get_text
                             (BeautifulSoup html))
                   ++ [(EvQuit, returned (fst (driver_quit driver m2)))]
                 = log ++ [(EvQuit, false)])).
      { destruct (driver_quit driver m2) as [[[] | e'] m3]; cbn [fst snd].
        - left. reflexivity.
        - right. exists e'.
          exists ((EvChrome, true) :: entries
                    ++ snd (selection_of Soup Tag soup_find_all_div
                              tag_get_text (BeautifulSoup html))).
          split; [reflexivity | log_eq]. }
      revert Hout. unfold selection_of.
      destruct (soup_find_all_div (BeautifulSoup html) main_class)
        as [| tag tags] eqn:Hmain; cbn [fst snd]; intros Hout.
      * right. exists (BeautifulSoup html). split; [exact Hmain |].
        split; [reflexivity | exact Hout].
      * left. exists (BeautifulSoup html), tag, tags. split; [exact Hmain |].
        split; [reflexivity | exact Hout].
Qed.

(** C9.  Once the browser session exists, every run of
    [extract_imdb_reviews] ends by calling [driver.quit()] on that
    session, on the machine as the body left it, whether the body
    returned its list or raised: the machine the run leaves is the one
    [driver.quit()] leaves, the call is recorded once, as the last
    entry, and the outcome is the body's unless [driver.quit()] itself
    raised.  When the session cannot be created nothing else is
    called. *)
Theorem session_always_released :
  forall (Machine Driver Element Soup Tag : Type)
         (webdriver_Chrome : list string -> Machine -> outcome Driver * Machine)
         (driver_get : Driver -> string -> Machine -> outcome unit * Machine)
         (driver_find_elements :
            Driver -> string -> Machine -> outcome (list Element) * Machine)
         (element_text : Element -> Machine -> outcome string * Machine)
         (driver_execute_script :
            Driver -> string -> Element -> Machine -> outcome unit * Machine)
         (time_sleep : Q -> Machine -> outcome unit * Machine)
         (driver_page_source : Driver -> Machine -> outcome string * Machine)
         (driver_quit : Driver -> Machine -> outcome unit * Machine)
         (BeautifulSoup : string -> Soup)
         (soup_find_all_div : Soup -> string -> list Tag)
         (tag_get_text : Tag -> string),
    forall (url : string) (waiting_timeout : Q) (m : Machine),
      let run :=
        extract_imdb_reviews Machine Driver Element Soup Tag webdriver_Chrome
          driver_get driver_find_elements element_text driver_execute_script
          time_sleep driver_page_source driver_quit BeautifulSoup
          soup_find_all_div tag_get_text url waiting_timeout (m, []) in
      match webdriver_Chrome chrome_arguments m with
      | (Raise e, m1) => run = (Raise e, (m1, [(EvChrome, false)]))
      | (Return driver, m1) =>
          let body :=
            session Machine Driver Element Soup Tag driver_get
              driver_find_elements element_text driver_execute_script
              time_sleep driver_page_source BeautifulSoup soup_find_all_div
              tag_get_text driver url waiting_timeout
              (m1, [(EvChrome, true)]) in
          let release := driver_quit driver (fst (snd body)) in
          fst (snd run) = snd release
          /\ snd (snd run)
             = snd (snd body) ++ [(EvQuit, returned (fst release))]
          /\ (exists entries,
                snd (snd body) = (EvChrome, true) :: entries
                /\ calls_of is_quit entries = [])
          /\ fst run
             = match fst release with
               | Return _ => fst body
               | Raise e => Raise e
               end
      end.
Proof.
  intros. subst run.
  remember (extract_imdb_reviews _ _ _ _ _ _ _ _ _ _ _ _ _ _ _ _ _ _ _)
    as run eqn:Hrun.
  revert run Hrun.
  unfold extract_imdb_reviews. unfold bind at 1. unfold call at 1.
  cbv beta. cbn [fst snd app].
  destruct (webdriver_Chrome chrome_arguments m) as [[driver | e] m1];
    [| intros run ->; reflexivity].
  unfold try_finally. cbn [returned]. cbv zeta.
  pose proof (session_run Machine Driver Element Soup Tag driver_get
                driver_find_elements element_text driver_execute_script
                time_sleep driver_page_source BeautifulSoup
                soup_find_all_div tag_get_text driver url waiting_timeout
                (m1, [(EvChrome, true)])) as Hses.
  destruct (session _ _ _ _ _ _ _ _ _ _ _ _ _ _ _ _ _ _) as [r [m2 log]].
  unfold call. cbn [fst snd] in *.
  assert (Hlog : exists entries,
             log = (EvChrome, true) :: entries
             /\ calls_of is_quit entries = []).
  { destruct Hses as (entries & Hplain & [(e & m' & E) | (html & m' & E)]);
      cbv zeta in E; injection E as _ _ Elog; subst log.
    - exists entries. split; [reflexivity |].
      exact (plain_no_calls is_quit entries plain_not_quit Hplain).
    - exists (entries
                ++ snd (selection_of Soup Tag soup_find_all_div tag_get_text
                          (BeautifulSoup html))).
      split; [reflexivity |].
      destruct (selection_calls Soup Tag soup_find_all_div tag_get_text
                  (BeautifulSoup html)) as [_ Hsel].
      pose proof (plain_no_calls is_quit entries plain_not_quit Hplain)
        as Hnone.
      unfold calls_of in *. rewrite filter_app, Hsel, Hnone.
      reflexivity. }
  destruct (driver_quit driver m2) as [[[] | e'] m3]; cbn [fst snd returned];
    intros run ->; cbn [fst snd]; repeat split; try reflexivity; exact Hlog.
Qed.

Example no_browser_left_running :
  fst (snd (BrowserSamples.run_counting_browsers false)) = 0
  /\ fst (snd (BrowserSamples.run_counting_browsers true)) = 0
  /\ fst (BrowserSamples.run_counting_browsers true)
     = Raise (Exception "WebDriverException").
Proof. repeat split; reflexivity. Qed.

End ScrapperFacts.
(* ===================================================================== *)
(** * Sorting rows by a float column                                     *)
(* ===================================================================== *)

Module RankingFacts.

Import Float Ranking.

Ltac key_arith :=
  unfold key_precedes, key_le, key_lt, key_eq in *;
  repeat match goal with
         | k : key |- _ => destruct k as [[[? ?] ?] ?]
         | H : context [match ?k with (_, _) => _ end] |- _ =>
             destruct k as [[[? ?] ?] ?]
         | |- context [match ?k with (_, _) => _ end] =>
             destruct k as [[[? ?] ?] ?]
         end;
  lia.

Lemma key_le_total (a b : key) : key_le a b \/ key_lt b a.
Proof. key_arith. Qed.

Lemma key_lt_not_le (a b : key) : key_lt b a -> ~ key_le a b.
Proof. key_arith. Qed.

(** How [SFcompare] reads on the ascending keys. *)
Lemma compare_asc_key (x y : float) :
  is_nan x = false -> is_nan y = false ->
  match SFcompare x y with
  | Some Lt => key_lt (asc_key x) (asc_key y)
  | Some Eq => key_eq (asc_key x) (asc_key y)
  | Some Gt => key_lt (asc_key y) (asc_key x)
  | None => False
  end.
Proof.
  destruct x as [[] | [] | | [] m e]; destruct y as [[] | [] | | [] m' e'];
    cbn [is_nan]; intros Hx Hy; try discriminate;
    cbn [SFcompare asc_key key_lt key_eq]; try lia.
  - change (Pos.compare_cont Eq m m') with (Pos.compare m m').
    destruct (Z.compare_spec e e'); destruct (Pos.compare_spec m m');
      cbn [CompOpp]; subst; lia.
  - change (Pos.compare_cont Eq m m') with (Pos.compare m m').
    destruct (Z.compare_spec e e'); destruct (Pos.compare_spec m m');
      subst; lia.
Qed.

Lemma asc_key_nan (x : float) :
  is_nan x = false -> exists a b c, asc_key x = (0, a, b, c)%Z.
Proof.
  destruct x as [[] | [] | | [] m e]; cbn; intros H; try discriminate;
    eauto.
Qed.

Lemma asc_before_key (x y : float) :
  Pandas.asc_before x y = true <-> key_le (asc_key x) (asc_key y).
Proof.
  destruct (is_nan x) eqn:Hx; destruct (is_nan y) eqn:Hy.
  - destruct x; try discriminate; destruct y; try discriminate.
    cbn. unfold key_le, key_lt, key_eq. intuition lia.
  - destruct x; try discriminate.
    destruct (asc_key_nan y Hy) as (a & b & c & E).
    destruct y; try discriminate; cbn [Pandas.asc_before];
      rewrite E; cbn [asc_key]; unfold key_le, key_lt, key_eq;
      intuition (try discriminate; try lia).
  - destruct y; try discriminate.
    destruct (asc_key_nan x Hx) as (a & b & c & E).
    destruct x; try discriminate; cbn [Pandas.asc_before];
      rewrite E; cbn [asc_key]; unfold key_le, key_lt, key_eq;
      intuition (try discriminate; try lia).
  - pose proof (compare_asc_key x y Hx Hy) as Hxy.
    assert (E : Pandas.asc_before x y = le x y)
      by (destruct x; try discriminate; destruct y; try discriminate;
          reflexivity).
    rewrite E. unfold le, SFleb.
    destruct (SFcompare x y) as [[] |]; try contradiction;
      split; intros H; try reflexivity; try discriminate;
      try (exfalso; revert H Hxy; generalize (asc_key x) (asc_key y);
           intros; key_arith);
      revert Hxy; generalize (asc_key x) (asc_key y); intros; key_arith.
Qed.

Lemma asc_key_of_nan (x : float) :
  is_nan x = true -> asc_key x = (1, 0, 0, 0)%Z.
Proof. destruct x; cbn; intros H; try discriminate; reflexivity. Qed.

Lemma desc_key_asc_key (x : float) :
  desc_key x =
  let '(k1, k2, k3, k4) := asc_key x in (k1, - k2, - k3, - k4)%Z.
Proof. reflexivity. Qed.

Lemma desc_before_asc_before (x y : float) :
  is_nan x = false -> is_nan y = false ->
  Pandas.desc_before x y = Pandas.asc_before y x.
Proof.
  destruct x; try discriminate; destruct y; try discriminate; reflexivity.
Qed.

Lemma desc_before_key (x y : float) :
  Pandas.desc_before x y = true <-> key_le (desc_key x) (desc_key y).
Proof.
  rewrite !desc_key_asc_key.
  destruct (is_nan x) eqn:Hx; destruct (is_nan y) eqn:Hy.
  - rewrite (asc_key_of_nan x Hx), (asc_key_of_nan y Hy).
    destruct x; try discriminate; destruct y; try discriminate.
    cbn. unfold key_le, key_lt, key_eq. intuition lia.
  - rewrite (asc_key_of_nan x Hx).
    destruct (asc_key_nan y Hy) as (a & b & c & E). rewrite E.
    destruct x; try discriminate.
    destruct y; try discriminate; cbn [Pandas.desc_before];
      unfold key_le, key_lt, key_eq;
      intuition (try discriminate; try lia).
  - rewrite (asc_key_of_nan y Hy).
    destruct (asc_key_nan x Hx) as (a & b & c & E). rewrite E.
    destruct y; try discriminate.
    destruct x; try discriminate; cbn [Pandas.desc_before];
      unfold key_le, key_lt, key_eq;
      intuition (try discriminate; try lia).
  - rewrite (desc_before_asc_before x y Hx Hy), asc_before_key.
    destruct (asc_key_nan x Hx) as (a & b & c & E). rewrite E.
    destruct (asc_key_nan y Hy) as (a' & b' & c' & E'). rewrite E'.
    unfold key_le, key_lt, key_eq. lia.
Qed.

(** The ranking vocabulary read on the keys. *)
Lemma lt_asc_key (x y : float) :
  strictly_ahead lt x y <-> key_lt (asc_key x) (asc_key y).
Proof.
  unfold strictly_ahead.
  destruct (is_nan x) eqn:Hx.
  - rewrite (asc_key_of_nan x Hx).
    split; [intros [H _]; discriminate |].
    destruct (is_nan y) eqn:Hy.
    + rewrite (asc_key_of_nan y Hy). unfold key_lt. lia.
    + destruct (asc_key_nan y Hy) as (a & b & c & E). rewrite E.
      unfold key_lt. lia.
  - destruct (is_nan y) eqn:Hy.
    + rewrite (asc_key_of_nan y Hy).
      destruct (asc_key_nan x Hx) as (a & b & c & E). rewrite E.
      unfold key_lt. intuition lia.
    + pose proof (compare_asc_key x y Hx Hy) as Hxy.
      unfold lt, SFltb.
      destruct (SFcompare x y) as [[] |]; try contradiction;
        revert Hxy; generalize (asc_key x) (asc_key y); intros k k' Hxy;
        (split; [intros [_ [H | H]]; try discriminate; try assumption
                | intros H; split; [reflexivity |]; try (right; reflexivity)]);
        exfalso; key_arith.
Qed.

Lemma gt_desc_key (x y : float) :
  strictly_ahead gt x y <-> key_lt (desc_key x) (desc_key y).
Proof.
  rewrite !desc_key_asc_key. unfold strictly_ahead.
  destruct (is_nan x) eqn:Hx.
  - rewrite (asc_key_of_nan x Hx).
    split; [intros [H _]; discriminate |].
    destruct (is_nan y) eqn:Hy.
    + rewrite (asc_key_of_nan y Hy). unfold key_lt. lia.
    + destruct (asc_key_nan y Hy) as (a & b & c & E). rewrite E.
      unfold key_lt. lia.
  - destruct (is_nan y) eqn:Hy.
    + rewrite (asc_key_of_nan y Hy).
      destruct (asc_key_nan x Hx) as (a & b & c & E). rewrite E.
      unfold key_lt. intuition lia.
    + pose proof (compare_asc_key y x Hy Hx) as Hxy.
      unfold gt, SFltb.
      destruct (asc_key_nan x Hx) as (a & b & c & E). rewrite E in *.
      destruct (asc_key_nan y Hy) as (a' & b' & c' & E'). rewrite E' in *.
      destruct (SFcompare y x) as [[] |]; try contradiction;
        (split; [intros [_ [H | H]]; try discriminate
                | intros H; split; [reflexivity |]; try (right; reflexivity)]);
        try (exfalso; key_arith); key_arith.
Qed.

Lemma tied_asc_key (x y : float) :
  tied x y <-> key_eq (asc_key x) (asc_key y).
Proof.
  unfold tied.
  destruct (is_nan x) eqn:Hx; destruct (is_nan y) eqn:Hy.
  - rewrite (asc_key_of_nan x Hx), (asc_key_of_nan y Hy).
    unfold key_eq. intuition lia.
  - rewrite (asc_key_of_nan x Hx).
    destruct (asc_key_nan y Hy) as (a & b & c & E). rewrite E.
    unfold key_eq. intuition (try discriminate; try lia).
  - rewrite (asc_key_of_nan y Hy).
    destruct (asc_key_nan x Hx) as (a & b & c & E). rewrite E.
    unfold key_eq. intuition (try discriminate; try lia).
  - pose proof (compare_asc_key x y Hx Hy) as Hxy.
    pose proof (compare_asc_key y x Hy Hx) as Hyx.
    unfold lt, gt, SFltb.
    destruct (SFcompare x y) as [[] |]; try contradiction;
      destruct (SFcompare y x) as [[] |]; try contradiction;
      revert Hxy Hyx; generalize (asc_key x) (asc_key y); intros k k' Hxy Hyx;
      (split; [intros [[H _] | (_ & _ & H1 & H2)]; try discriminate
              | intros H; right; repeat split; try reflexivity]);
      try assumption; exfalso; key_arith.
Qed.

Lemma tied_desc_key (x y : float) :
  tied x y <-> key_eq (desc_key x) (desc_key y).
Proof.
  rewrite tied_asc_key, !desc_key_asc_key.
  generalize (asc_key x) (asc_key y). intros k k'. key_arith.
Qed.

(** ** The stable insertion sort *)

Section StableSort.

Variable R : Type.
Variable before : R -> R -> bool.
Variable k : R -> key.
Hypothesis before_key :
  forall a b, before a b = true <-> key_le (k a) (k b).

Lemma key_precedes_trans (a b c : nat * R) :
  key_precedes k a b -> key_precedes k b c -> key_precedes k a c.
Proof.
  unfold key_precedes.
  generalize (k (snd a)) (k (snd b)) (k (snd c)). intros ka kb kc.
  key_arith.
Qed.

Lemma insert_row_perm (x : nat * R) (l : list (nat * R)) :
  Permutation (x :: l) (Pandas.insert_row before x l).
Proof.
  induction l as [| y l IH]; cbn.
  - apply Permutation_refl.
  - destruct (before (snd x) (snd y)).
    + apply Permutation_refl.
    + eapply Permutation_trans; [apply perm_swap |].
      apply perm_skip. exact IH.
Qed.

Lemma sort_rows_perm (df : list (nat * R)) :
  Permutation df (Pandas.sort_rows before df).
Proof.
  induction df as [| x df IH]; cbn.
  - apply perm_nil.
  - eapply Permutation_trans; [| apply insert_row_perm].
    apply perm_skip. exact IH.
Qed.

Lemma insert_row_sorted (x : nat * R) (l : list (nat * R)) :
  StronglySorted (key_precedes k) l ->
  Forall (fun y => fst x < fst y) l ->
  StronglySorted (key_precedes k) (Pandas.insert_row before x l).
Proof.
  induction l as [| y l IH]; cbn; intros Hs Hx.
  - constructor; constructor.
  - apply StronglySorted_inv in Hs. destruct Hs as [Hs Hy].
    inversion Hx as [| ? ? Hxy Hxl]; subst.
    destruct (before (snd x) (snd y)) eqn:Hb.
    + apply before_key in Hb.
      assert (Hpxy : key_precedes k x y).
      { unfold key_precedes. revert Hb.
        generalize (k (snd x)) (k (snd y)). intros kx ky Hb. key_arith. }
      constructor.
      * constructor; assumption.
      * constructor; [exact Hpxy |].
        eapply Forall_impl; [| exact Hy].
        intros z Hz. eapply key_precedes_trans; eassumption.
    + assert (Hpyx : key_precedes k y x).
      { left. destruct (key_le_total (k (snd x)) (k (snd y))) as [H | H].
        - apply before_key in H. congruence.
        - exact H. }
      constructor.
      * apply IH; assumption.
      * eapply Permutation_Forall; [apply insert_row_perm |].
        constructor; assumption.
Qed.

Lemma sort_rows_sorted (df : list (nat * R)) :
  StronglySorted (fun a b => fst a < fst b) df ->
  StronglySorted (key_precedes k) (Pandas.sort_rows before df).
Proof.
  induction df as [| x df IH]; cbn; intros Hs.
  - constructor.
  - apply StronglySorted_inv in Hs. destruct Hs as [Hs Hx].
    apply insert_row_sorted.
    + apply IH. exact Hs.
    + eapply Permutation_Forall; [apply sort_rows_perm | exact Hx].
Qed.

End StableSort.

Lemma StronglySorted_weaken {A : Type} (P Q : A -> A -> Prop) (l : list A) :
  (forall a b, P a b -> Q a b) -> StronglySorted P l -> StronglySorted Q l.
Proof.
  intros HPQ Hs. induction Hs as [| a l Hs IH Ha]; constructor.
  - exact IH.
  - eapply Forall_impl; [| exact Ha]. intros b. apply HPQ.
Qed.

Lemma enumerate_from_labels {A : Type} (l : list A) (i : nat) :
  StronglySorted (fun a b => fst a < fst b) (Py.enumerate_from i l)
  /\ Forall (fun a => i <= fst a) (Py.enumerate_from i l).
Proof.
  revert i. induction l as [| x l IH]; intros i; cbn.
  - split; constructor.
  - destruct (IH (S i)) as [Hs Hf]. split.
    + constructor; [exact Hs |].
      eapply Forall_impl; [| exact Hf]. cbn. intros a Ha. lia.
    + constructor; [cbn; lia |].
      eapply Forall_impl; [| exact Hf]. cbn. intros a Ha. lia.
Qed.

Lemma enumerate_length {A : Type} (l : list A) (i : nat) :
  List.length (Py.enumerate_from i l) = List.length l.
Proof. revert i. induction l; intros i; cbn; [| rewrite IHl]; reflexivity. Qed.

(** The rows [nlargest] keeps, followed by the ones it leaves out, are
    the frame in ranking order. *)
Lemma nlargest_ranked {R : Type} (n : nat) (column : R -> float)
  (rows : list R) :
  exists rest,
    Permutation (Py.enumerate rows)
                (Pandas.nlargest n column (Py.enumerate rows) ++ rest)
    /\ StronglySorted (precedes gt column)
                      (Pandas.nlargest n column (Py.enumerate rows) ++ rest).
Proof.
  unfold Pandas.nlargest.
  set (before := fun a b => Pandas.desc_before (column a) (column b)).
  exists (skipn n (Pandas.sort_rows before (Py.enumerate rows))).
  rewrite firstn_skipn. split.
  - apply sort_rows_perm.
  - apply StronglySorted_weaken with (P := key_precedes (fun r => desc_key (column r))).
    + intros a b [H | [H1 H2]].
      * left. apply gt_desc_key. exact H.
      * right. split; [apply tied_desc_key; exact H1 | exact H2].
    + apply sort_rows_sorted.
      * intros a b. apply desc_before_key.
      * apply enumerate_from_labels.
Qed.

Lemma nsmallest_ranked {R : Type} (n : nat) (column : R -> float)
  (rows : list R) :
  exists rest,
    Permutation (Py.enumerate rows)
                (Pandas.nsmallest n column (Py.enumerate rows) ++ rest)
    /\ StronglySorted (precedes lt column)
                      (Pandas.nsmallest n column (Py.enumerate rows) ++ rest).
Proof.
  unfold Pandas.nsmallest.
  set (before := fun a b => Pandas.asc_before (column a) (column b)).
  exists (skipn n (Pandas.sort_rows before (Py.enumerate rows))).
  rewrite firstn_skipn. split.
  - apply sort_rows_perm.
  - apply StronglySorted_weaken with (P := key_precedes (fun r => asc_key (column r))).
    + intros a b [H | [H1 H2]].
      * left. apply lt_asc_key. exact H.
      * right. split; [apply tied_asc_key; exact H1 | exact H2].
    + apply sort_rows_sorted.
      * intros a b. apply asc_before_key.
      * apply enumerate_from_labels.
Qed.

Lemma sort_rows_length {R : Type} (before : R -> R -> bool)
  (df : list (nat * R)) :
  List.length (Pandas.sort_rows before df) = List.length df.
Proof.
  symmetry. apply Permutation_length. apply sort_rows_perm.
Qed.

End RankingFacts.

(* ===================================================================== *)
(** * Properties of the aggregation code                                 *)
(* ===================================================================== *)

Module AppFacts.

Import Float Ranking RankingFacts.

Lemma above_and_below_exclude (p : float) :
  gt p lit_0_05 = true -> lt p (neg lit_0_05) = true -> False.
Proof.
  unfold gt, lt, neg, lit_0_05, SFltb.
  destruct p as [[] | [] | | [] m e]; cbn [SFcompare SFopp negb];
    intros H1 H2; discriminate.
Qed.

(** C1.  [polarity_bucket] gives every polarity exactly one of the three
    buckets: "Positive" exactly when [p > 0.05], "Negative" exactly when
    [p < -0.05], "Neutral" exactly when neither comparison holds; the two
    comparisons never hold together, and the overall bucket is
    [polarity_bucket] of the mean polarity. *)
Theorem polarity_bucket_partition :
  forall p : float,
    (App.polarity_bucket p = "Positive" <-> gt p lit_0_05 = true)
    /\ (App.polarity_bucket p = "Negative" <-> lt p (neg lit_0_05) = true)
    /\ (App.polarity_bucket p = "Neutral" <->
          gt p lit_0_05 = false /\ lt p (neg lit_0_05) = false)
    /\ ~ (gt p lit_0_05 = true /\ lt p (neg lit_0_05) = true)
    /\ (forall series_mean df,
          App.overall_sentiment series_mean df
          = App.polarity_bucket
              (series_mean (map (fun r => App.polarity_of (snd r)) df))).
Proof.
  intros p.
  pose proof (above_and_below_exclude p) as Hex.
  unfold App.polarity_bucket.
  destruct (gt p lit_0_05) eqn:Hgt; destruct (lt p (neg lit_0_05)) eqn:Hlt;
    try (exfalso; apply Hex; reflexivity);
    repeat split; try discriminate; try reflexivity; try tauto;
    intros [? ?]; discriminate.
Qed.

(** C2.  For every sequence of scored reviews, labelled 0, 1, ... in
    extraction order, [top_positive] (resp. [top_negative]) followed by
    the rows it leaves out is the whole frame arranged by decreasing
    (resp. increasing) polarity, rows of equal polarity by increasing
    label; it has [min 3 n] rows; and on a single review both are that
    review alone. *)
Theorem top_reviews_selection :
  (forall rows : list App.LabelledRow,
    let df := Py.enumerate rows in
    (exists rest,
        Permutation df (App.top_positive df ++ rest)
        /\ StronglySorted (precedes gt App.polarity_of)
                          (App.top_positive df ++ rest))
    /\ (exists rest,
          Permutation df (App.top_negative df ++ rest)
          /\ StronglySorted (precedes lt App.polarity_of)
                            (App.top_negative df ++ rest))
    /\ List.length (App.top_positive df) = Nat.min 3 (List.length rows)
    /\ List.length (App.top_negative df) = Nat.min 3 (List.length rows))
  /\ (forall r : App.LabelledRow,
        App.top_positive (Py.enumerate [r]) = [(0, r)]
        /\ App.top_negative (Py.enumerate [r]) = [(0, r)]).
Proof.
  split; [intros rows df; subst df; repeat split | split; reflexivity].
  - apply nlargest_ranked.
  - apply nsmallest_ranked.
  - unfold App.top_positive, Pandas.nlargest.
    rewrite length_firstn, sort_rows_length. unfold Py.enumerate.
    rewrite enumerate_length. reflexivity.
  - unfold App.top_negative, Pandas.nsmallest.
    rewrite length_firstn, sort_rows_length. unfold Py.enumerate.
    rewrite enumerate_length. reflexivity.
Qed.

Lemma map_seq_enumerate {A B : Type} (g : nat -> nat * B) (f : A -> B)
  (l : list A) (k : nat) :
  (forall i x, nth_error l i = Some x -> g (k + i) = (k + i, f x)) ->
  map g (seq k (List.length l)) = Py.enumerate_from k (map f l).
Proof.
  revert k. induction l as [| a l IH]; intros k H; cbn; [reflexivity |].
  f_equal.
  - specialize (H 0 a eq_refl). rewrite Nat.add_0_r in H. exact H.
  - apply IH. intros i x Hi. specialize (H (S i) x Hi).
    rewrite Nat.add_succ_r in H. exact H.
Qed.

(** C10.  The frame [sentiment_pipeline] builds from [n] raw reviews
    has [n] rows, labelled 0 to [n - 1] in the order of the input; the
    row of a review holds that review, its normalization, and the
    polarity and subjectivity the scorer gives that normalization. *)
Theorem pipeline_rows_aligned :
  forall (stop_words : string -> bool) (lemmatize : string -> string)
         (lexicon_score : string -> float * float)
         (raw_reviews : list string),
    App.sentiment_pipeline stop_words lemmatize lexicon_score raw_reviews
    = Py.enumerate
        (map (fun review =>
                let normalized :=
                  Preprocessor.preprocess_review stop_words lemmatize review in
                SentimentAnalysis.mkRow
                  (Some review) (Some normalized)
                  (fst (TextBlob.sentiment lexicon_score normalized))
                  (snd (TextBlob.sentiment lexicon_score normalized)))
             raw_reviews)
    /\ List.length
         (App.sentiment_pipeline stop_words lemmatize lexicon_score raw_reviews)
       = List.length raw_reviews.
Proof.
  intros stop_words lemmatize lexicon_score raw_reviews.
  assert (Hlen :
    Nat.max
      (Nat.max (List.length raw_reviews)
         (List.length
            (Preprocessor.preprocess_reviews stop_words lemmatize raw_reviews)))
      (Nat.max
         (List.length
            (Pandas.apply
               (fun x => fst (TextBlob.sentiment lexicon_score x))
               (Preprocessor.preprocess_reviews stop_words lemmatize
                  raw_reviews)))
         (List.length
            (Pandas.apply
               (fun x => snd (TextBlob.sentiment lexicon_score x))
               (Preprocessor.preprocess_reviews stop_words lemmatize
                  raw_reviews))))
    = List.length raw_reviews).
  { unfold Pandas.apply.
    rewrite PreprocessorFacts.preprocess_reviews_map, !length_map. lia. }
  unfold App.sentiment_pipeline, SentimentAnalysis.analyze_sentiment,
    SentimentAnalysis.frame_of_columns.
  cbv zeta. rewrite Hlen. split.
  - unfold Py.enumerate. apply map_seq_enumerate.
    intros i review Hi. cbn [Nat.add]. f_equal.
    rewrite PreprocessorFacts.preprocess_reviews_map.
    unfold Pandas.cell, Pandas.float_cell, Pandas.apply.
    rewrite Hi.
    pose proof (map_nth_error
                  (Preprocessor.preprocess_review stop_words lemmatize)
                  i raw_reviews Hi) as Hn.
    rewrite Hn.
    rewrite (nth_error_nth _ _ _
               (map_nth_error
                  (fun x => fst (TextBlob.sentiment lexicon_score x)) i _ Hn)).
    rewrite (nth_error_nth _ _ _
               (map_nth_error
                  (fun x => snd (TextBlob.sentiment lexicon_score x)) i _ Hn)).
    reflexivity.
  - rewrite length_map, length_seq. reflexivity.
Qed.

(** The frame [main] ranks is labelled 0, 1, ... in extraction order. *)
Lemma add_labels_enumerate (rows : list SentimentAnalysis.Row) :
  App.add_labels (Py.enumerate rows)
  = Py.enumerate
      (map (fun r => App.mkLabelledRow r
                       (App.polarity_bucket (SentimentAnalysis.polarity r))
                       (App.polarity_to_emoji (SentimentAnalysis.polarity r)))
           rows).
Proof.
  unfold Py.enumerate. generalize 0.
  induction rows as [| r rows IH]; intros k; cbn; [reflexivity |].
  f_equal. apply IH.
Qed.

Example bucket_at_threshold :
  App.polarity_bucket lit_0_05 = "Neutral"
  /\ App.polarity_bucket lit_0_3 = "Positive"
  /\ App.polarity_bucket (neg lit_0_3) = "Negative"
  /\ App.polarity_bucket S754_nan = "Neutral".
Proof. repeat split; reflexivity. Qed.

Example top_positive_ties :
  map fst (App.top_positive
             (Py.enumerate
                (Samples.rows_of
                   [lit_0_05; lit_0_3; S754_nan; lit_0_3; neg lit_0_3;
                    lit_0_3])))
  = [1; 3; 5]
  /\ map fst (App.top_negative
                (Py.enumerate
                   (Samples.rows_of
                      [lit_0_05; neg lit_0_3; S754_nan; lit_0_05])))
     = [1; 0; 3].
Proof. split; reflexivity. Qed.

End AppFacts.

(* ===================================================================== *)
(** * The order of floats                                                *)
(* ===================================================================== *)

Module FloatOrderFacts.

Import Float Ranking RankingFacts.

Lemma compare_nan (x y : float) :
  is_nan x = true \/ is_nan y = true -> SFcompare x y = None.
Proof.
  intros [H | H].
  - destruct x; try discriminate. reflexivity.
  - destruct y; try discriminate. destruct x; reflexivity.
Qed.

Lemma lt_true_key (x y : float) :
  lt x y = true <->
  is_nan x = false /\ is_nan y = false /\ key_lt (asc_key x) (asc_key y).
Proof.
  unfold lt, SFltb.
  destruct (is_nan x) eqn:Hx.
  { rewrite (compare_nan x y (or_introl Hx)).
    split; [discriminate | intros (H & _); discriminate]. }
  destruct (is_nan y) eqn:Hy.
  { rewrite (compare_nan x y (or_intror Hy)).
    split; [discriminate | intros (_ & H & _); discriminate]. }
  pose proof (compare_asc_key x y Hx Hy) as Hxy.
  destruct (SFcompare x y) as [[] |]; try contradiction;
    revert Hxy; generalize (asc_key x) (asc_key y); intros k k' Hxy;
    (split; [intros H; try discriminate; auto | intros (_ & _ & H)]);
    try reflexivity; exfalso; key_arith.
Qed.

Lemma le_true_key (x y : float) :
  le x y = true <->
  is_nan x = false /\ is_nan y = false /\ key_le (asc_key x) (asc_key y).
Proof.
  unfold le, SFleb.
  destruct (is_nan x) eqn:Hx.
  { rewrite (compare_nan x y (or_introl Hx)).
    split; [discriminate | intros (H & _); discriminate]. }
  destruct (is_nan y) eqn:Hy.
  { rewrite (compare_nan x y (or_intror Hy)).
    split; [discriminate | intros (_ & H & _); discriminate]. }
  pose proof (compare_asc_key x y Hx Hy) as Hxy.
  destruct (SFcompare x y) as [[] |]; try contradiction;
    revert Hxy; generalize (asc_key x) (asc_key y); intros k k' Hxy;
    (split; [intros H; try discriminate; repeat split | intros (_ & _ & H)]);
    try reflexivity; try (exfalso; key_arith); key_arith.
Qed.

Lemma gt_is_lt (x y : float) : gt x y = lt y x.
Proof. reflexivity. Qed.

Lemma lt_le_trans (x y z : float) :
  lt x y = true -> le y z = true -> lt x z = true.
Proof.
  rewrite !lt_true_key, le_true_key.
  intros (Hx & Hy & Hxy) (_ & Hz & Hyz). repeat split; try assumption.
  revert Hxy Hyz. generalize (asc_key x) (asc_key y) (asc_key z).
  intros kx ky kz Hxy Hyz. key_arith.
Qed.

Lemma le_lt_trans (x y z : float) :
  le x y = true -> lt y z = true -> lt x z = true.
Proof.
  rewrite !lt_true_key, le_true_key.
  intros (Hx & Hy & Hxy) (_ & Hz & Hyz). repeat split; try assumption.
  revert Hxy Hyz. generalize (asc_key x) (asc_key y) (asc_key z).
  intros kx ky kz Hxy Hyz. key_arith.
Qed.

Lemma lt_trans (x y z : float) :
  lt x y = true -> lt y z = true -> lt x z = true.
Proof.
  rewrite !lt_true_key.
  intros (Hx & Hy & Hxy) (_ & Hz & Hyz). repeat split; try assumption.
  revert Hxy Hyz. generalize (asc_key x) (asc_key y) (asc_key z).
  intros kx ky kz Hxy Hyz. key_arith.
Qed.

Lemma le_refl (x : float) : is_nan x = false -> le x x = true.
Proof.
  intros Hx. apply le_true_key. repeat split; try assumption.
  generalize (asc_key x). intros k. key_arith.
Qed.

Lemma lit_0_05_below_0_3 : lt lit_0_05 lit_0_3 = true.
Proof. reflexivity. Qed.

Lemma neg_0_3_below_neg_0_05 : lt (neg lit_0_3) (neg lit_0_05) = true.
Proof. reflexivity. Qed.

Lemma above_0_3_above_0_05 (p : float) :
  gt p lit_0_3 = true -> gt p lit_0_05 = true.
Proof.
  rewrite !gt_is_lt. apply lt_trans. exact lit_0_05_below_0_3.
Qed.

Lemma below_neg_0_3_below_neg_0_05 (p : float) :
  lt p (neg lit_0_3) = true -> lt p (neg lit_0_05) = true.
Proof.
  intros H. eapply lt_trans; [exact H | exact neg_0_3_below_neg_0_05].
Qed.

End FloatOrderFacts.

(* ===================================================================== *)
(** * Properties of the labels [main] shows                              *)
(* ===================================================================== *)

Module LabelFacts.

Import Float FloatOrderFacts AppDisplay.

(** The four threshold tests on one polarity can only come out in six
    ways. *)
Lemma threshold_cases (p : float) :
  (gt p lit_0_3 = true -> gt p lit_0_05 = true)
  /\ (lt p (neg lit_0_3) = true -> lt p (neg lit_0_05) = true)
  /\ (gt p lit_0_05 = true -> lt p (neg lit_0_05) = false).
Proof.
  split; [apply above_0_3_above_0_05 |].
  split; [apply below_neg_0_3_below_neg_0_05 |].
  intros H. destruct (lt p (neg lit_0_05)) eqn:Hlt; [| reflexivity].
  exfalso. exact (AppFacts.above_and_below_exclude p H Hlt).
Qed.

Ltac threshold_analysis p :=
  destruct (threshold_cases p) as (H1 & H2 & H3);
  destruct (gt p lit_0_3) eqn:Ha;
  destruct (gt p lit_0_05) eqn:Hb;
  destruct (lt p (neg lit_0_3)) eqn:Hc;
  destruct (lt p (neg lit_0_05)) eqn:Hd;
  try (specialize (H1 eq_refl); discriminate);
  try (specialize (H2 eq_refl); discriminate);
  try (specialize (H3 eq_refl); discriminate).

(** X1.  The emoji and the bucket of a polarity agree: a smiling face
    goes with "Positive", the pensive and the neutral face with
    "Negative", the expressionless face with "Neutral". *)
Theorem emoji_agrees_with_bucket :
  forall p : float,
    (App.polarity_bucket p = "Positive" <->
       App.polarity_to_emoji p = App.BeamingFace
       \/ App.polarity_to_emoji p = App.SlightlySmilingFace)
    /\ (App.polarity_bucket p = "Negative" <->
          App.polarity_to_emoji p = App.PensiveFace
          \/ App.polarity_to_emoji p = App.NeutralFace)
    /\ (App.polarity_bucket p = "Neutral" <->
          App.polarity_to_emoji p = App.ExpressionlessFace).
Proof.
  intros p. unfold App.polarity_bucket, App.polarity_to_emoji.
  threshold_analysis p;
    (split; [| split]); split; intros H;
    try discriminate; try reflexivity; auto;
    try (destruct H as [H | H]; discriminate).
Qed.

(** X2.  The colour [get_sentiment_color] gives a polarity is the
    colour the chart scale gives the bucket of that polarity. *)
Theorem sentiment_color_matches_scale :
  forall p : float,
    scale_color scale_domain scale_range (App.polarity_bucket p)
    = Some (get_sentiment_color p).
Proof.
  intros p. unfold App.polarity_bucket, get_sentiment_color.
  destruct (gt p lit_0_05); [reflexivity |].
  destruct (lt p (neg lit_0_05)); reflexivity.
Qed.

(** X3.  The verdict and the phrase shown for the mean polarity agree
    with the overall bucket: "Highly Praised" or "Praised" and "mostly
    positive" exactly for "Positive", "Not Praised" and "mostly
    negative" exactly for "Negative", "Mixed Reviews" and "mixed"
    exactly for "Neutral". *)
Theorem verdict_agrees_with_bucket :
  forall avg : float,
    (App.polarity_bucket avg = "Positive" <->
       verdict avg = "Highly Praised" \/ verdict avg = "Praised")
    /\ (App.polarity_bucket avg = "Negative" <-> verdict avg = "Not Praised")
    /\ (App.polarity_bucket avg = "Neutral" <-> verdict avg = "Mixed Reviews")
    /\ (App.polarity_bucket avg = "Positive" <->
          summary_phrase avg = "mostly positive")
    /\ (App.polarity_bucket avg = "Negative" <->
          summary_phrase avg = "mostly negative")
    /\ (App.polarity_bucket avg = "Neutral" <-> summary_phrase avg = "mixed").
Proof.
  intros p. unfold App.polarity_bucket, verdict, summary_phrase.
  threshold_analysis p;
    repeat split; intros H;
    try discriminate; try reflexivity; auto;
    try (destruct H as [H | H]; discriminate).
Qed.

(** X4.  The bucket grows with the polarity: when [p <= q], the bucket
    of [p] is not above the bucket of [q] in the order Negative,
    Neutral, Positive. *)
Theorem polarity_bucket_monotone :
  forall p q : float,
    le p q = true ->
    bucket_rank (App.polarity_bucket p) <= bucket_rank (App.polarity_bucket q).
Proof.
  intros p q Hpq. unfold App.polarity_bucket.
  destruct (gt p lit_0_05) eqn:Hp.
  - rewrite gt_is_lt in Hp.
    assert (Hq : gt q lit_0_05 = true)
      by (rewrite gt_is_lt; exact (lt_le_trans _ _ _ Hp Hpq)).
    rewrite Hq. cbn. lia.
  - destruct (gt q lit_0_05); [destruct (lt p (neg lit_0_05)); cbn; lia |].
    destruct (lt q (neg lit_0_05)) eqn:Hq.
    + rewrite (le_lt_trans _ _ _ Hpq Hq). cbn. lia.
    + destruct (lt p (neg lit_0_05)); cbn; lia.
Qed.

Lemma polarity_bucket_monotone_witness :
  le lit_0_05 lit_0_3 = true
  /\ bucket_rank (App.polarity_bucket lit_0_05)
     <= bucket_rank (App.polarity_bucket lit_0_3).
Proof.
  split; [reflexivity |].
  apply (polarity_bucket_monotone lit_0_05 lit_0_3). reflexivity.
Defined.

End LabelFacts.

(* ===================================================================== *)
(** * Properties of [format_review_for_display]                          *)
(* ===================================================================== *)

Module FormatFacts.

Import AppDisplay.

Lemma length_app (a b : string) :
  String.length (a ++ b) = String.length a + String.length b.
Proof. induction a as [| c a IH]; cbn; [| rewrite IH]; reflexivity. Qed.

Lemma take_length (n : nat) (s : string) :
  String.length (take n s) = Nat.min n (String.length s).
Proof.
  revert s. induction n as [| n IH]; intros [| c s]; cbn; try reflexivity.
  rewrite IH. reflexivity.
Qed.

Lemma take_all (n : nat) (s : string) :
  String.length s <= n -> take n s = s.
Proof.
  revert s. induction n as [| n IH]; intros [| c s]; cbn; intros H;
    try reflexivity; try lia.
  rewrite IH by lia. reflexivity.
Qed.

Lemma take_app (n : nat) (a b : string) :
  n <= String.length a -> take n (a ++ b) = take n a.
Proof.
  revert a. induction n as [| n IH]; intros [| c a]; cbn; intros H;
    try reflexivity; try lia.
  rewrite IH by lia. reflexivity.
Qed.

Lemma take_take (n : nat) (s : string) : take n (take n s) = take n s.
Proof.
  revert s. induction n as [| n IH]; intros [| c s]; cbn; try reflexivity.
  rewrite IH. reflexivity.
Qed.

Lemma slice_to_nonneg (s : string) (stop : Z) :
  (0 <= stop)%Z -> slice_to s stop = take (Z.to_nat stop) s.
Proof.
  intros H. unfold slice_to.
  destruct (Z.ltb_spec stop 0); [lia | reflexivity].
Qed.

Lemma format_short (review : string) (max_length : Z) :
  (len review <= max_length)%Z ->
  format_review_for_display review max_length = review.
Proof.
  intros H. unfold format_review_for_display.
  destruct (Z.leb_spec (len review) max_length); [reflexivity | lia].
Qed.

Lemma format_long (review : string) (max_length : Z) :
  (0 <= max_length < len review)%Z ->
  format_review_for_display review max_length
  = (take (Z.to_nat max_length) review ++ "...")%string.
Proof.
  intros H. unfold format_review_for_display.
  destruct (Z.leb_spec (len review) max_length); [lia |].
  rewrite slice_to_nonneg by lia. reflexivity.
Qed.

(** X5.  For a limit that is not negative, the text shown for a review
    has at most [max_length + 3] code points, begins with the first
    [max_length] code points of the review, is the review itself when
    that is short enough, and is left unchanged when formatted again. *)
Theorem format_review_for_display_bounded :
  forall (review : string) (max_length : Z),
    (0 <= max_length)%Z ->
    (len (format_review_for_display review max_length) <= max_length + 3)%Z
    /\ take (Z.to_nat max_length)
            (format_review_for_display review max_length)
       = take (Z.to_nat max_length) review
    /\ ((len review <= max_length)%Z ->
        format_review_for_display review max_length = review)
    /\ format_review_for_display
         (format_review_for_display review max_length) max_length
       = format_review_for_display review max_length.
Proof.
  intros review max_length Hmax.
  destruct (Z.le_gt_cases (len review) max_length) as [Hshort | Hlong].
  - rewrite !(format_short review max_length Hshort).
    split; [lia |]. split; [reflexivity |]. split; reflexivity.
  - rewrite !(format_long review max_length (conj Hmax Hlong)).
    unfold len in Hlong.
    assert (Hlen : String.length (take (Z.to_nat max_length) review)
                   = Z.to_nat max_length)
      by (rewrite take_length; lia).
    assert (Hshown :
      len (take (Z.to_nat max_length) review ++ "...") = (max_length + 3)%Z).
    { unfold len. rewrite length_app, Hlen. cbn [String.length]. lia. }
    split; [lia |].
    split; [rewrite take_app by lia; apply take_take |].
    split; [intros H; unfold len in H; lia |].
    rewrite format_long by lia.
    rewrite take_app by lia. rewrite take_take. reflexivity.
Qed.

Lemma format_review_for_display_bounded_witness :
  (len (format_review_for_display "A film worth seeing twice" 6) <= 6 + 3)%Z
  /\ take (Z.to_nat 6) (format_review_for_display "A film worth seeing twice" 6)
     = take (Z.to_nat 6) "A film worth seeing twice"
  /\ ((len "A film worth seeing twice" <= 6)%Z ->
      format_review_for_display "A film worth seeing twice" 6
      = "A film worth seeing twice")
  /\ format_review_for_display
       (format_review_for_display "A film worth seeing twice" 6) 6
     = format_review_for_display "A film worth seeing twice" 6.
Proof.
  apply (format_review_for_display_bounded "A film worth seeing twice" 6).
  lia.
Defined.

Example format_review_example :
  format_review_for_display "A film worth seeing twice" 6 = "A film..."
  /\ format_review_for_display "Fine" 6 = "Fine"
  /\ format_review_for_display "abcd" (-1) = "abc...".
Proof. repeat split; reflexivity. Qed.

End FormatFacts.

(* ===================================================================== *)
(** * Properties of the selection table of [main]                        *)
(* ===================================================================== *)

Module OptionsFacts.

Import AppDisplay.

Lemma dict_get_set (k k' v : string) (d : Dict) :
  dict_get k (dict_set k' v d)
  = if (k =? k')%string then Some v else dict_get k d.
Proof.
  induction d as [| [k0 v0] d IH]; cbn.
  - reflexivity.
  - destruct (String.eqb_spec k' k0) as [E | E]; cbn.
    + subst k0. destruct (k =? k')%string; reflexivity.
    + destruct (String.eqb_spec k k0) as [E0 | E0].
      * subst k0. destruct (String.eqb_spec k k'); [congruence | reflexivity].
      * exact IH.
Qed.

Lemma dict_keys_set (k v : string) (d : Dict) :
  dict_keys (dict_set k v d)
  = if existsb (String.eqb k) (dict_keys d) then dict_keys d
    else dict_keys d ++ [k].
Proof.
  unfold dict_keys. induction d as [| [k0 v0] d IH]; cbn; [reflexivity |].
  destruct (k =? k0)%string; cbn; [reflexivity |].
  rewrite IH. destruct (existsb (String.eqb k) (map fst d)); reflexivity.
Qed.

Lemma existsb_eqb_In (k : string) (l : list string) :
  existsb (String.eqb k) l = true <-> In k l.
Proof.
  rewrite existsb_exists. split.
  - intros (x & Hx & E). apply String.eqb_eq in E. subst. exact Hx.
  - intros H. exists k. split; [exact H | apply String.eqb_refl].
Qed.

Lemma find_app {A : Type} (p : A -> bool) (l1 l2 : list A) :
  find p (l1 ++ l2)
  = match find p l1 with
    | Some x => Some x
    | None => find p l2
    end.
Proof.
  induction l1 as [| a l1 IH]; cbn; [reflexivity |].
  destruct (p a); [reflexivity | exact IH].
Qed.

(** The loop from any table reached so far. *)
Lemma fill_options (candidates : list FindMovie.Movie) (d : Dict)
  (label : string) :
  let options :=
    fold_left
      (fun options m =>
         dict_set (candidate_label m) (FindMovie.title m) options)
      candidates d in
  dict_get label options
  = match find (fun m => (candidate_label m =? label)%string)
               (rev candidates) with
    | Some m => Some (FindMovie.title m)
    | None => dict_get label d
    end
  /\ (NoDup (dict_keys d) -> NoDup (dict_keys options))
  /\ (In label (dict_keys options) <->
      In label (dict_keys d) \/ In label (map candidate_label candidates))
  /\ List.length (dict_keys options)
     <= List.length (dict_keys d) + List.length candidates.
Proof.
  cbv zeta. revert d.
  induction candidates as [| m candidates IH]; intros d; cbn [fold_left].
  - cbn. repeat split; auto; try tauto. lia.
  - destruct (IH (dict_set (candidate_label m) (FindMovie.title m) d))
      as (Hget & Hnodup & Hin & Hlen).
    pose proof (dict_keys_set (candidate_label m) (FindMovie.title m) d)
      as Hkeys.
    repeat split.
    + rewrite Hget. cbn [rev]. rewrite find_app. cbn [find].
      destruct (find _ (rev candidates)); [reflexivity |].
      rewrite dict_get_set, String.eqb_sym. 
      destruct (candidate_label m =? label)%string; reflexivity.
    + intros Hd. apply Hnodup. rewrite Hkeys.
      destruct (existsb (String.eqb (candidate_label m)) (dict_keys d))
        eqn:E; [exact Hd |].
      apply NoDup_app; [exact Hd | repeat constructor; intros [] |].
      intros x Hx [Hx' | []]. subst x.
      pose proof (proj2 (existsb_eqb_In _ _) Hx). congruence.
    + intros H. apply Hin in H. rewrite Hkeys in H. cbn [map In].
      destruct (existsb (String.eqb (candidate_label m)) (dict_keys d));
        [tauto |].
      destruct H as [H | H]; [| tauto].
      apply in_app_or in H. cbn in H. tauto.
    + intros H. apply Hin. rewrite Hkeys. cbn [map In] in H.
      destruct (existsb (String.eqb (candidate_label m)) (dict_keys d))
        eqn:E.
      * destruct H as [H | [H | H]]; try tauto.
        left. apply existsb_eqb_In in E. subst label. exact E.
      * destruct H as [H | [H | H]]; try tauto.
        -- left. apply in_or_app. tauto.
        -- left. apply in_or_app. right. left. exact H.
    + rewrite Hkeys in Hlen. cbn [List.length].
      destruct (existsb (String.eqb (candidate_label m)) (dict_keys d));
        [lia |].
      rewrite length_app in Hlen. cbn in Hlen. lia.
Qed.

(** X6.  In the table [main] fills from the candidates, the labels
    offered are the candidates' labels, each once; the title kept for a
    label is the title of the last candidate with that label; and there
    are no more labels than candidates. *)
Theorem options_keep_last_title :
  forall (candidates : list FindMovie.Movie) (label : string),
    dict_get label (build_options candidates)
    = option_map FindMovie.title
        (find (fun m => (candidate_label m =? label)%string)
              (rev candidates))
    /\ NoDup (dict_keys (build_options candidates))
    /\ (In label (dict_keys (build_options candidates)) <->
        In label (map candidate_label candidates))
    /\ List.length (dict_keys (build_options candidates))
       <= List.length candidates.
Proof.
  intros candidates label.
  destruct (fill_options candidates [] label) as (Hget & Hnodup & Hin & Hlen).
  unfold build_options. repeat split.
  - rewrite Hget.
    destruct (find _ (rev candidates)); reflexivity.
  - apply Hnodup. constructor.
  - intros H. apply Hin in H. cbn in H. tauto.
  - intros H. apply Hin. right. exact H.
  - exact Hlen.
Qed.

Example options_same_label :
  let candidates :=
    [FindMovie.mkMovie "Heat (1995)" None "0000001";
     FindMovie.mkMovie "Heat" (Some 1995) "0113277";
     FindMovie.mkMovie "Heat" (Some 0) "0000002"] in
  build_options candidates = [("Heat (1995)", "Heat"); ("Heat", "Heat")].
Proof. reflexivity. Qed.

End OptionsFacts.

(* ===================================================================== *)
(** * Properties of the sentiment counts                                 *)
(* ===================================================================== *)

Module CountFacts.

Import AppDisplay.

Lemma counts_get_incr (v v' : string) (counts : list (string * nat)) :
  counts_get v 0 (count_incr v' counts)
  = (if (v =? v')%string then 1 else 0) + counts_get v 0 counts.
Proof.
  induction counts as [| [v0 n] counts IH]; cbn.
  - destruct (v =? v')%string; reflexivity.
  - destruct (String.eqb_spec v' v0) as [E | E]; cbn.
    + subst v0. destruct (v =? v')%string; reflexivity.
    + destruct (String.eqb_spec v v0) as [E0 | E0].
      * subst v0. destruct (String.eqb_spec v v'); [congruence | reflexivity].
      * exact IH.
Qed.

Lemma counts_get_fold (v : string) (col : list string)
  (counts : list (string * nat)) :
  counts_get v 0 (fold_left (fun c x => count_incr x c) col counts)
  = List.length (filter (fun s => (s =? v)%string) col)
    + counts_get v 0 counts.
Proof.
  revert counts. induction col as [| x col IH]; intros counts; cbn;
    [reflexivity |].
  rewrite IH, counts_get_incr, (String.eqb_sym v x).
  destruct (x =? v)%string; cbn; lia.
Qed.

Lemma value_counts_get (v : string) (col : list string) :
  counts_get v 0 (value_counts col)
  = List.length (filter (fun s => (s =? v)%string) col).
Proof. unfold value_counts. rewrite counts_get_fold. cbn. lia. Qed.

Lemma bucket_is_one_of_three (p : Float.float) :
  App.polarity_bucket p = "Positive"
  \/ App.polarity_bucket p = "Neutral"
  \/ App.polarity_bucket p = "Negative".
Proof.
  unfold App.polarity_bucket.
  destruct (Float.gt p Float.lit_0_05); [tauto |].
  destruct (Float.lt p (Float.neg Float.lit_0_05)); tauto.
Qed.

(** X7.  In the frame [main] has labelled, the counts looked up for
    "Positive", "Neutral" and "Negative" add up to the number of
    reviews, no other label is counted, and the count of "Positive" is
    the number the approval rate is computed from. *)
Theorem sentiment_counts_partition :
  forall (scored : Pandas.DataFrame SentimentAnalysis.Row) (label : string),
    let df := App.add_labels scored in
    let sentiment_counts := value_counts (sentiment_column df) in
    counts_get "Positive" 0 sentiment_counts
    + counts_get "Neutral" 0 sentiment_counts
    + counts_get "Negative" 0 sentiment_counts
    = List.length df
    /\ sentiment_equal_sum "Positive" df
       = counts_get "Positive" 0 sentiment_counts
    /\ (counts_get label 0 sentiment_counts = 0
        \/ label = "Positive" \/ label = "Neutral" \/ label = "Negative").
Proof.
  intros scored label. cbv zeta. rewrite !value_counts_get.
  unfold sentiment_equal_sum. split; [| split; [reflexivity |]].
  - unfold sentiment_column, App.add_labels. rewrite map_map.
    induction scored as [| [i r] scored IH]; cbn [map filter List.length];
      [reflexivity |].
    cbn [snd App.sentiment].
    destruct (bucket_is_one_of_three (SentimentAnalysis.polarity r))
      as [E | [E | E]]; rewrite E; cbn; cbn in IH; lia.
  - unfold sentiment_column, App.add_labels. rewrite map_map.
    induction scored as [| [i r] scored IH]; cbn [map filter List.length];
      [left; reflexivity |].
    cbn [snd App.sentiment].
    destruct (String.eqb_spec
                (App.polarity_bucket (SentimentAnalysis.polarity r)) label)
      as [E | E]; [| exact IH].
    right. subst label. apply bucket_is_one_of_three.
Qed.

End CountFacts.

(* ===================================================================== *)
(** * More on the representative reviews                                 *)
(* ===================================================================== *)

Module TopFacts.

Import Float Ranking RankingFacts FloatOrderFacts.

Lemma desc_before_refl (p : float) : Pandas.desc_before p p = true.
Proof.
  destruct (is_nan p) eqn:Hp.
  - destruct p; try discriminate. reflexivity.
  - pose proof (le_refl p Hp) as H.
    destruct p; try discriminate; exact H.
Qed.

Lemma asc_before_refl (p : float) : Pandas.asc_before p p = true.
Proof.
  destruct (is_nan p) eqn:Hp.
  - destruct p; try discriminate. reflexivity.
  - pose proof (le_refl p Hp) as H.
    destruct p; try discriminate; exact H.
Qed.

(** Rows that may all stay in front of one another are left as they
    are. *)
Lemma sort_rows_all_tied {R : Type} (before : R -> R -> bool)
  (df : list (nat * R)) :
  (forall a b, In a df -> In b df -> before (snd a) (snd b) = true) ->
  Pandas.sort_rows before df = df.
Proof.
  induction df as [| x df IH]; intros H; [reflexivity |].
  cbn [Pandas.sort_rows fold_right].
  change (fold_right (Pandas.insert_row before) [] df)
    with (Pandas.sort_rows before df).
  rewrite IH by (intros a b Ha Hb; apply H; right; assumption).
  destruct df as [| y df]; [reflexivity |].
  cbn [Pandas.insert_row].
  rewrite (H x y (or_introl eq_refl) (or_intror (or_introl eq_refl))).
  reflexivity.
Qed.

(** X8.  With at most three reviews, [top_positive] and [top_negative]
    both hold every review: each is a rearrangement of the whole
    frame. *)
Theorem few_reviews_all_shown :
  forall df : Pandas.DataFrame App.LabelledRow,
    List.length df <= 3 ->
    Permutation df (App.top_positive df)
    /\ Permutation df (App.top_negative df).
Proof.
  intros df Hlen.
  unfold App.top_positive, App.top_negative, Pandas.nlargest,
    Pandas.nsmallest.
  rewrite !firstn_all2 by (rewrite sort_rows_length; exact Hlen).
  split; apply sort_rows_perm.
Qed.

Lemma few_reviews_all_shown_witness :
  let df := Py.enumerate (Samples.rows_of [lit_0_05; lit_0_3]) in
  Permutation df (App.top_positive df)
  /\ Permutation df (App.top_negative df).
Proof.
  apply (few_reviews_all_shown
           (Py.enumerate (Samples.rows_of [lit_0_05; lit_0_3]))).
  cbn. lia.
Defined.

(** X9.  When all reviews have the same polarity, [top_positive] and
    [top_negative] are the same list: the first three reviews, in
    extraction order. *)
Theorem tied_reviews_first_three :
  forall (df : Pandas.DataFrame App.LabelledRow) (p : float),
    (forall r, In r df -> App.polarity_of (snd r) = p) ->
    App.top_positive df = firstn 3 df
    /\ App.top_negative df = firstn 3 df.
Proof.
  intros df p H.
  unfold App.top_positive, App.top_negative, Pandas.nlargest,
    Pandas.nsmallest.
  split; rewrite sort_rows_all_tied; try reflexivity;
    intros a b Ha Hb; rewrite (H a Ha), (H b Hb).
  - apply desc_before_refl.
  - apply asc_before_refl.
Qed.

Lemma tied_reviews_first_three_witness :
  let df :=
    Py.enumerate (Samples.rows_of [lit_0_3; lit_0_3; lit_0_3; lit_0_3]) in
  App.top_positive df = firstn 3 df /\ App.top_negative df = firstn 3 df.
Proof.
  apply (tied_reviews_first_three
           (Py.enumerate (Samples.rows_of [lit_0_3; lit_0_3; lit_0_3; lit_0_3]))
           lit_0_3).
  intros r Hr. cbn in Hr.
  destruct Hr as [E | [E | [E | [E | []]]]]; subst r; reflexivity.
Defined.

End TopFacts.

(* ===================================================================== *)
(** * More on the normalizer                                             *)
(* ===================================================================== *)

Module CleaningFacts.

Import PyFacts Preprocessor PreprocessorFacts.

Lemma kept_tokens_clean (stop_words : string -> bool) (x : string) :
  Forall (fun w => clean_token w = true /\ stop_words w = false)
         (filter (fun word => negb (stop_words word)) (tokens x)).
Proof.
  pose proof (tokens_clean x) as H.
  induction H as [| w l Hw Hl IH]; cbn; [constructor |].
  destruct (stop_words w) eqn:Hs; cbn; [exact IH |].
  constructor; [auto | exact IH].
Qed.

Lemma kept_tokens_stable (stop_words : string -> bool) (x : string) :
  Forall (fun w => clean_token w = true /\ stop_words w = false
                   /\ (fun w' : string => w') w = w)
         (filter (fun word => negb (stop_words word)) (tokens x)).
Proof.
  eapply Forall_impl; [| apply (kept_tokens_clean stop_words x)].
  cbn. tauto.
Qed.

(** X10.  Whatever the stopword set, the first three steps
    (lowercasing, punctuation removal, stopword removal) give a text
    that they leave unchanged when applied again, and whose words are
    clean tokens none of which is a stopword. *)
Theorem cleaning_idempotent :
  forall (stop_words : string -> bool) (x : string),
    let clean y :=
      remove_stopwords stop_words (Py.re_sub_non_word_space (Py.lower y)) in
    clean (clean x) = clean x
    /\ Forall (fun w => clean_token w = true /\ stop_words w = false)
              (Py.split (clean x)).
Proof.
  intros stop_words x. cbv zeta. unfold remove_stopwords.
  fold (tokens x).
  destruct (stable_tokens_again stop_words (fun w => w) _
              (kept_tokens_stable stop_words x)) as [Ht Hm].
  rewrite map_id in Hm. split.
  - fold (tokens (Py.join " "
                    (filter (fun word => negb (stop_words word)) (tokens x)))).
    rewrite Ht, Hm. reflexivity.
  - rewrite split_join.
    + apply kept_tokens_clean.
    + eapply Forall_impl; [| apply (kept_tokens_clean stop_words x)].
      cbn. intros w (Hc & _). apply clean_token_is_token. exact Hc.
Qed.

(** X11.  The lemmatizer is only applied to clean tokens that are not
    stopwords: two lemmatizers that agree on those give the same
    normalization of every review. *)
Theorem lemmatizer_sees_kept_tokens :
  forall (stop_words : string -> bool) (lemmatize lemmatize' : string -> string),
    (forall w, clean_token w = true -> stop_words w = false ->
               lemmatize w = lemmatize' w) ->
    forall x,
      preprocess_review stop_words lemmatize x
      = preprocess_review stop_words lemmatize' x.
Proof.
  intros stop_words lemmatize lemmatize' H x.
  rewrite !preprocess_review_tokens. f_equal.
  pose proof (kept_tokens_clean stop_words x) as Hk.
  induction Hk as [| w l (Hc & Hs) Hl IH]; cbn; [reflexivity |].
  rewrite (H w Hc Hs), IH. reflexivity.
Qed.

Lemma lemmatizer_sees_kept_tokens_witness :
  preprocess_review Samples.stop_words Samples.lemmatize_movies
    "It's a CAN; the Movies!"
  = preprocess_review Samples.stop_words
      (fun w => if (w =? "can")%string then "tin"
                else Samples.lemmatize_movies w)
      "It's a CAN; the Movies!".
Proof.
  apply (lemmatizer_sees_kept_tokens Samples.stop_words
           Samples.lemmatize_movies
           (fun w => if (w =? "can")%string then "tin"
                     else Samples.lemmatize_movies w)).
  intros w Hc Hs.
  destruct (String.eqb_spec w "can") as [E | E]; [| reflexivity].
  subst w. discriminate.
Defined.

End CleaningFacts.

(* ===================================================================== *)
(** * More on the review extractor                                       *)
(* ===================================================================== *)

Module ClickFacts.

Import Eff Scrapper ScrapperLog ScrapperFacts.

Ltac in_endings :=
  cbn; repeat first [left; reflexivity | right].

Section WithBrowser.

Variables Machine Driver Element Soup Tag : Type.
Variable driver_get : Driver -> string -> Machine -> outcome unit * Machine.
Variable driver_find_elements :
  Driver -> string -> Machine -> outcome (list Element) * Machine.
Variable element_text : Element -> Machine -> outcome string * Machine.
Variable driver_execute_script :
  Driver -> string -> Element -> Machine -> outcome unit * Machine.
Variable time_sleep : Q -> Machine -> outcome unit * Machine.
Variable driver_page_source : Driver -> Machine -> outcome string * Machine.
Variable BeautifulSoup : string -> Soup.
Variable soup_find_all_div : Soup -> string -> list Tag.
Variable tag_get_text : Tag -> string.

(** The record of the button loop: text reads that returned, then one
    of the endings; the loop answers [true] exactly with the last
    ending, [false] exactly with the empty one. *)
Lemma click_all_button_run (driver : Driver) (all_buttons : list Element)
  (s : Machine * list (event * bool)) :
  exists k ending,
    snd (snd (click_all_button Machine Driver Element element_text
                driver_execute_script time_sleep driver all_buttons s))
    = snd s ++ repeat (EvText, true) k ++ ending
    /\ In ending loop_endings
    /\ match fst (click_all_button Machine Driver Element element_text
                    driver_execute_script time_sleep driver all_buttons s) with
       | Return clicked =>
           clicked = existsb click_returned ending
           /\ (ending = [] \/ clicked = true)
       | Raise _ => existsb click_returned ending = false /\ ending <> []
       end.
Proof using.
  revert s. induction all_buttons as [| button rest IH]; intros s.
  - exists 0, []. cbn. rewrite app_nil_r. auto.
  - remember (click_all_button _ _ _ _ _ _ _ (button :: rest) s) as run
      eqn:Hrun.
    revert run Hrun.
    cbn [click_all_button]. unfold bind at 1. unfold call at 1.
    destruct (element_text button (fst s)) as [[text | e] m1]; cbn [fst snd].
    2: { intros run ->. exists 0, [(EvText, false)].
         split; [reflexivity |]. split; [in_endings |].
         cbn. split; [reflexivity | discriminate]. }
    destruct (Py.contains "All" text).
    + unfold bind at 1. unfold call at 1. cbn [fst snd].
      destruct (driver_execute_script driver scroll_script button m1)
        as [[[] | e] m2]; cbn [fst snd].
      2: { intros run ->.
           exists 0, [(EvText, true); (EvScript scroll_script, false)].
           split; [log_eq |]. split; [in_endings |].
           cbn. split; [reflexivity | discriminate]. }
      unfold bind at 1. unfold call at 1. cbn [fst snd].
      destruct (time_sleep (1 # 2) m2) as [[[] | e] m3]; cbn [fst snd].
      2: { intros run ->.
           exists 0, [(EvText, true); (EvScript scroll_script, true);
                      (EvSleep (1 # 2), false)].
           split; [log_eq |]. split; [in_endings |].
           cbn. split; [reflexivity | discriminate]. }
      unfold bind at 1. unfold call at 1. cbn [fst snd].
      destruct (driver_execute_script driver click_script button m3)
        as [[[] | e] m4]; cbn [fst snd]; intros run ->.
      * exists 0, [(EvText, true); (EvScript scroll_script, true);
                   (EvSleep (1 # 2), true); (EvScript click_script, true)].
        split; [log_eq |]. split; [in_endings |].
        cbn. split; [reflexivity | right; reflexivity].
      * exists 0, [(EvText, true); (EvScript scroll_script, true);
                   (EvSleep (1 # 2), true); (EvScript click_script, false)].
        split; [log_eq |]. split; [in_endings |].
        cbn. split; [reflexivity | discriminate].
    + intros run ->.
      destruct (IH (m1, snd s ++ [(EvText, returned (Return text))]))
        as (k & ending & Hlog & Hend & Hout).
      exists (S k), ending.
      cbn [fst snd] in Hlog. rewrite Hlog.
      split; [log_eq |]. split; [exact Hend | exact Hout].
Qed.

Lemma filter_repeat_false {A : Type} (f : A -> bool) (x : A) (k : nat) :
  f x = false -> filter f (repeat x k) = [].
Proof using.
  intros H. induction k as [| k IH]; cbn; [reflexivity |].
  rewrite H. exact IH.
Qed.

(** What the endings hold: at most one run of the click script, and no
    pause but the half second before the click. *)
Lemma ending_facts (k : nat) (ending : list (event * bool)) :
  In ending loop_endings ->
  let entries := repeat (EvText, true) k ++ ending in
  List.length (filter click_called entries) <= 1
  /\ existsb click_returned entries = existsb click_returned ending
  /\ (calls_of is_sleep entries = []
      \/ exists ok, calls_of is_sleep entries = [(EvSleep (1 # 2), ok)]).
Proof using.
  intros Hin. cbv zeta. unfold calls_of.
  rewrite !filter_app, existsb_app.
  rewrite (filter_repeat_false click_called (EvText, true) k eq_refl).
  rewrite (filter_repeat_false (fun entry => is_sleep (fst entry))
             (EvText, true) k eq_refl).
  assert (Hrep : existsb click_returned (repeat (EvText, true) k) = false)
    by (induction k; [reflexivity | exact IHk]).
  rewrite Hrep. cbn [app orb].
  cbn in Hin.
  destruct Hin as [E | [E | [E | [E | [E | [E | []]]]]]]; subst ending; cbn;
    (split; [lia |]); (split; [reflexivity |]); eauto.
Qed.

Lemma locate_and_click_run (driver : Driver)
  (s : Machine * list (event * bool)) :
  exists entries,
    snd (snd (locate_and_click Machine Driver Element driver_find_elements
                element_text driver_execute_script time_sleep driver s))
    = snd s ++ entries
    /\ List.length (filter click_called entries) <= 1
    /\ (calls_of is_sleep entries = []
        \/ exists ok, calls_of is_sleep entries = [(EvSleep (1 # 2), ok)])
    /\ match fst (locate_and_click Machine Driver Element
                    driver_find_elements element_text driver_execute_script
                    time_sleep driver s) with
       | Return clicked => clicked = existsb click_returned entries
       | Raise (Exception _) => False
       | Raise (BaseException _) => existsb click_returned entries = false
       end.
Proof using.
  remember (locate_and_click _ _ _ _ _ _ _ driver s) as run eqn:Hrun.
  revert run Hrun.
  unfold locate_and_click, try_except_Exception.
  unfold bind at 1. unfold call at 1.
  destruct (driver_find_elements driver see_more_xpath (fst s))
    as [[all_buttons | [what | what]] m1]; cbn [fst snd returned].
  2: { intros run ->. exists [(EvFindElements see_more_xpath, false)].
       cbn. auto. }
  2: { intros run ->. exists [(EvFindElements see_more_xpath, false)].
       cbn. auto. }
  destruct (click_all_button_run driver all_buttons
              (m1, snd s ++ [(EvFindElements see_more_xpath, true)]))
    as (k & ending & Hlog & Hend & Hout).
  destruct (ending_facts k ending Hend) as (Hcount & Hret & Hsleep).
  cbv zeta in Hcount, Hret, Hsleep.
  assert (Hshape :
    forall r m,
      snd (snd (r : outcome bool,
                (m : Machine,
                 (snd s ++ [(EvFindElements see_more_xpath, true)])
                   ++ repeat (EvText, true) k ++ ending)))
      = snd s ++ (EvFindElements see_more_xpath, true)
                   :: repeat (EvText, true) k ++ ending)
    by (intros; log_eq).
  destruct (click_all_button _ _ _ _ _ _ _ _ _)
    as [[clicked | [what | what]] [m2 log2]];
    cbn [fst snd] in *; subst log2; intros run ->; cbn [fst snd ret];
    exists ((EvFindElements see_more_xpath, true)
              :: repeat (EvText, true) k ++ ending);
    (split; [apply (Hshape (Return true) m2) |]);
    (split; [exact Hcount |]); (split; [exact Hsleep |]);
    cbn [existsb click_returned orb]; rewrite Hret;
    destruct Hout as [Hout _]; congruence.
Qed.

(** How far a run of the body gets, and how long it pauses. *)
Lemma session_pause_run (driver : Driver) (url : string)
  (waiting_timeout : Q) (s : Machine * list (event * bool)) :
  let run :=
    session Machine Driver Element Soup Tag driver_get driver_find_elements
      element_text driver_execute_script time_sleep driver_page_source
      BeautifulSoup soup_find_all_div tag_get_text driver url
      waiting_timeout s in
  let attempt :=
    locate_and_click Machine Driver Element driver_find_elements
      element_text driver_execute_script time_sleep driver
      (snd (driver_get driver url (fst s)), snd s ++ [(EvGet url, true)]) in
  (exists e, fst run = Raise e /\ snd (snd run) = snd s ++ [(EvGet url, false)])
  \/ (exists what,
        fst attempt = Raise (BaseException what)
        /\ fst run = Raise (BaseException what)
        /\ snd (snd run) = snd (snd attempt))
  \/ (exists clicked ok rest,
        fst attempt = Return clicked
        /\ snd (snd run)
           = snd (snd attempt)
               ++ (EvSleep (if clicked then waiting_timeout else 3), ok)
               :: rest
        /\ calls_of is_sleep rest = []).
Proof using.
  cbv zeta.
  remember (session _ _ _ _ _ _ _ _ _ _ _ _ _ _ _ _ _ _) as run eqn:Hrun.
  revert run Hrun.
  unfold session. cbn [negb]. unfold bind at 1. unfold call at 1.
  destruct (driver_get driver url (fst s)) as [[[] | e] m1]; cbn [fst snd].
  2: { intros run ->. left. exists e. split; reflexivity. }
  unfold bind at 1.
  destruct (locate_and_click_run driver (m1, snd s ++ [(EvGet url, true)]))
    as (located & _ & _ & _ & Hout).
  destruct (locate_and_click _ _ _ _ _ _ _ _ _)
    as [[clicked | [what | what]] [m2 log2]];
    cbn [fst snd] in *.
  2: { contradiction. }
  2: { intros run ->. right. left. exists what. repeat split. }
  clear Hout.
  set (pause := if clicked then waiting_timeout else 3%Q).
  assert (Hpause :
    (if clicked
     then call Machine (EvSleep waiting_timeout) (time_sleep waiting_timeout)
     else call Machine (EvSleep 3) (time_sleep 3))
    = call Machine (EvSleep pause) (time_sleep pause))
    by (subst pause; destruct clicked; reflexivity).
  rewrite Hpause. unfold bind at 1. unfold call at 1. cbn [fst snd].
  destruct (time_sleep pause m2) as [[[] | e] m3].
  2: { intros run ->. right. right. exists clicked, false, [].
       repeat split. }
  unfold bind at 1. unfold call at 1. cbn [fst snd].
  destruct (driver_page_source driver m3) as [[html | e] m4].
  2: { intros run ->. right. right.
       exists clicked, true, [(EvPageSource, false)].
       split; [reflexivity |]. split; [log_eq | reflexivity]. }
  rewrite select_reviews_run. cbn [fst snd]. intros run ->.
  right. right.
  exists clicked, true,
    ((EvPageSource, true)
       :: snd (selection_of Soup Tag soup_find_all_div tag_get_text
                 (BeautifulSoup html))).
  split; [reflexivity |]. split; [log_eq |].
  unfold selection_of.
  destruct (soup_find_all_div (BeautifulSoup html) main_class); reflexivity.
Qed.

End WithBrowser.

(** X12.  The attempt to expand the reviews never lets an exception of
    class [Exception] out; in its record the click script is run at
    most once, whether that call returned or raised, and the only
    pause is the half second before the click; it leaves the flag
    [all_button_clicked] set exactly when the click returned. *)
Theorem expansion_attempt_outcome :
  forall (Machine Driver Element Soup Tag : Type)
         (driver_get : Driver -> string -> Machine -> outcome unit * Machine)
         (driver_find_elements :
            Driver -> string -> Machine -> outcome (list Element) * Machine)
         (element_text : Element -> Machine -> outcome string * Machine)
         (driver_execute_script :
            Driver -> string -> Element -> Machine -> outcome unit * Machine)
         (time_sleep : Q -> Machine -> outcome unit * Machine)
         (driver_page_source : Driver -> Machine -> outcome string * Machine)
         (BeautifulSoup : string -> Soup)
         (soup_find_all_div : Soup -> string -> list Tag)
         (tag_get_text : Tag -> string)
         (driver : Driver) (s : Machine * list (event * bool)),
    let run :=
      locate_and_click Machine Driver Element driver_find_elements
        element_text driver_execute_script time_sleep driver s in
    exists entries,
      snd (snd run) = snd s ++ entries
      /\ List.length (filter click_called entries) <= 1
      /\ (calls_of is_sleep entries = []
          \/ exists ok, calls_of is_sleep entries = [(EvSleep (1 # 2), ok)])
      /\ match fst run with
         | Return all_button_clicked =>
             all_button_clicked = existsb click_returned entries
         | Raise (Exception _) => False
         | Raise (BaseException _) => existsb click_returned entries = false
         end.
Proof.
  intros. subst run.
  apply locate_and_click_run.
Qed.

(** X13.  A run of the body stops at a failed navigation, or stops
    with the error of the expansion attempt, its record then being the
    attempt's, or goes on from the attempt with exactly one pause and
    no other: the record is the attempt's record, then one pause of
    [waiting_timeout] seconds when the attempt answered [true] and of
    3 seconds when it answered [false], then calls none of which is a
    pause. *)
Theorem pause_follows_click :
  forall (Machine Driver Element Soup Tag : Type)
         (driver_get : Driver -> string -> Machine -> outcome unit * Machine)
         (driver_find_elements :
            Driver -> string -> Machine -> outcome (list Element) * Machine)
         (element_text : Element -> Machine -> outcome string * Machine)
         (driver_execute_script :
            Driver -> string -> Element -> Machine -> outcome unit * Machine)
         (time_sleep : Q -> Machine -> outcome unit * Machine)
         (driver_page_source : Driver -> Machine -> outcome string * Machine)
         (BeautifulSoup : string -> Soup)
         (soup_find_all_div : Soup -> string -> list Tag)
         (tag_get_text : Tag -> string)
         (driver : Driver) (url : string) (waiting_timeout : Q)
         (s : Machine * list (event * bool)),
    let run :=
      session Machine Driver Element Soup Tag driver_get driver_find_elements
        element_text driver_execute_script time_sleep driver_page_source
        BeautifulSoup soup_find_all_div tag_get_text driver url
        waiting_timeout s in
    let attempt :=
      locate_and_click Machine Driver Element driver_find_elements
        element_text driver_execute_script time_sleep driver
        (snd (driver_get driver url (fst s)), snd s ++ [(EvGet url, true)]) in
    (exists e,
        fst run = Raise e /\ snd (snd run) = snd s ++ [(EvGet url, false)])
    \/ (exists what,
          fst attempt = Raise (BaseException what)
          /\ fst run = Raise (BaseException what)
          /\ snd (snd run) = snd (snd attempt))
    \/ (exists all_button_clicked ok rest,
          fst attempt = Return all_button_clicked
          /\ snd (snd run)
             = snd (snd attempt)
                 ++ (EvSleep (if all_button_clicked
                              then waiting_timeout else 3), ok)
                 :: rest
          /\ calls_of is_sleep rest = []).
Proof.
  intros. subst run attempt. apply session_pause_run.
Qed.

End ClickFacts.

(* ===================================================================== *)
(** * More on the movie resolver                                         *)
(* ===================================================================== *)

Module LinkFacts.

Import Eff FindMovie AppDisplay.

Lemma append_inj_l (p x y : string) :
  (p ++ x)%string = (p ++ y)%string -> x = y.
Proof.
  induction p as [| c p IH]; cbn; intros H; [exact H |].
  injection H as H. apply IH. exact H.
Qed.

Lemma append_inj_r (s x y : string) :
  (x ++ s)%string = (y ++ s)%string -> x = y.
Proof.
  revert y. induction x as [| c x IH]; intros [| c' y] H.
  - reflexivity.
  - apply (f_equal String.length) in H. cbn in H.
    rewrite FormatFacts.length_app in H. lia.
  - apply (f_equal String.length) in H. cbn in H.
    rewrite FormatFacts.length_app in H. lia.
  - cbn in H. injection H as Hc H. subst c'. f_equal. apply IH. exact H.
Qed.

(** X14.  The reviews link determines the movie identifier: two
    identifiers with the same link are the same. *)
Theorem reviews_link_injective :
  forall movie_id movie_id' : string,
    reviews_link_of movie_id = reviews_link_of movie_id' ->
    movie_id = movie_id'.
Proof.
  intros a b H. unfold reviews_link_of in H.
  apply append_inj_l in H. apply append_inj_r in H. exact H.
Qed.

Lemma reviews_link_injective_witness :
  reviews_link_of "0133093" = reviews_link_of "0133093"
  /\ "0133093" = "0133093".
Proof.
  split; [reflexivity |].
  apply (reviews_link_injective "0133093" "0133093"). reflexivity.
Defined.

(** X15.  Whatever the lookup returns, [main] offers at most 10 labels
    to choose from, and each of them is the label of one of the first
    10 results. *)
Theorem at_most_ten_labels :
  forall (Service : Type)
         (ia_search_movie : string -> Service -> outcome (list Movie) * Service)
         (movie_query : string) (w : World Service)
         (candidates : list Movie),
    fst (App.candidates Service ia_search_movie movie_query w)
    = Return candidates ->
    List.length (dict_keys (build_options candidates)) <= 10
    /\ (forall label,
          In label (dict_keys (build_options candidates)) ->
          exists m,
            In m (firstn 10 (match fst (ia_search_movie movie_query (service w))
                             with
                             | Return results => results
                             | Raise _ => []
                             end))
            /\ candidate_label m = label).
Proof.
  intros Service ia_search_movie movie_query w candidates H.
  unfold App.candidates, App.get_movie_candidates, bind in H.
  rewrite FindMovieFacts.search_movies_run in H.
  destruct (ia_search_movie movie_query (service w)) as [[results | e] sv];
    unfold ret in H; cbn [fst] in *; [| discriminate].
  assert (E : candidates = firstn 10 results) by congruence.
  clear H. subst candidates. split.
  - destruct (OptionsFacts.fill_options (firstn 10 results) [] EmptyString)
      as (_ & _ & _ & Hlen).
    cbv zeta in Hlen. unfold build_options.
    cbn [dict_keys map List.length Nat.add] in Hlen.
    rewrite length_firstn in Hlen. lia.
  - intros label Hin.
    destruct (OptionsFacts.fill_options (firstn 10 results) [] label)
      as (_ & _ & Hkeys & _).
    apply Hkeys in Hin. destruct Hin as [[] | Hin].
    apply in_map_iff in Hin. destruct Hin as (m & E & Hm).
    exists m. auto.
Qed.

Lemma at_most_ten_labels_witness :
  List.length (dict_keys (build_options (firstn 10 Samples.eleven_movies)))
  <= 10
  /\ (forall label,
        In label (dict_keys (build_options (firstn 10 Samples.eleven_movies))) ->
        exists m,
          In m (firstn 10
                  (match fst (Samples.lookup_eleven "matrix"
                                (service Samples.fresh_world)) with
                   | Return results => results
                   | Raise _ => []
                   end))
          /\ candidate_label m = label).
Proof.
  apply (at_most_ten_labels unit Samples.lookup_eleven "matrix"
           Samples.fresh_world (firstn 10 Samples.eleven_movies)).
  reflexivity.
Defined.

End LinkFacts.
